(** * The sessions manager of iris ([sessions/sessions.go])

    A shallow embedding of the [Sessions] manager: the orchestration layer
    that ties a request context to a provider-managed session through cookie
    reads and writes.  The manager's methods are state transformers over a
    [World] holding the request context, the provider, the heap of session
    objects and the clock.  The request layer ([context]), the provider and
    the [http.Cookie] structure are collaborators that live outside
    [sessions.go]; the manager is stated over their interfaces. *)

From Stdlib Require Import ZArith String List Lia.
From Stdlib Require Import Floats.PrimFloat Floats.SpecFloat Floats.FloatOps.
From Stdlib Require Import Numbers.Cyclic.Int63.Uint63.
From stdpp Require Import base option list gmap strings.

Local Open Scope string_scope.
Local Open Scope list_scope.
Local Open Scope Z_scope.

(** ** Package [time] *)

Module time.

(** A [time.Duration] is an int64 count of nanoseconds. *)
Abbreviation Duration := Z (only parsing).

(** A [time.Time] is read as the count of nanoseconds elapsed since Go's zero
    [Time] (January 1, year 1, 00:00 UTC); the zero value of the type is [0].
    The wall clock and the monotonic clock are not told apart. *)
Abbreviation Time := Z (only parsing).

Definition zeroTime : Time := 0.
Definition Second : Duration := 1000000000.
Definition minDuration : Duration := - 2 ^ 63.
Definition maxDuration : Duration := 2 ^ 63 - 1.

(** [t.Add(d)]. *)
Definition Add (t : Time) (d : Duration) : Time := t + d.

(** [t.Sub(u)]: the difference, clamped to the int64 range of a Duration. *)
Definition Sub (t u : Time) : Duration :=
  let d := t - u in
  if d <? minDuration then minDuration
  else if maxDuration <? d then maxDuration
  else d.

(** Conversion of an integer of magnitude below 2^63 to float64. *)
Definition float64_of_Z (z : Z) : float :=
  if z <? 0 then PrimFloat.opp (PrimFloat.of_uint63 (Uint63.of_Z (- z)))
  else PrimFloat.of_uint63 (Uint63.of_Z z).

(** Go's [int(f)] on a finite float64: truncation toward zero. *)
Definition int_of_float64 (f : float) : Z :=
  match Prim2SF f with
  | S754_finite s m e =>
      let a := match e with
               | Z0 => Zpos m
               | Zpos p => Z.shiftl (Zpos m) (Zpos p)
               | Zneg p => Z.shiftr (Zpos m) (Zpos p)
               end in
      if s then - a else a
  | _ => 0
  end.

(** [d.Seconds()]:
    [sec := d / Second; nsec := d % Second; float64(sec) + float64(nsec)/1e9]. *)
Definition Seconds (d : Duration) : float :=
  let sec := Z.quot d Second in
  let nsec := Z.rem d Second in
  PrimFloat.add (float64_of_Z sec)
                (PrimFloat.div (float64_of_Z nsec) (float64_of_Z 1000000000)).

End time.

(** ** Package [net/http]: the cookie structure *)

Module http.

Record Cookie := mkCookie {
  Name : string;
  Value : string;
  Path : string;
  Domain : string;
  Expires : time.Time;
  MaxAge : Z;
  Secure : bool;
  HttpOnly : bool
}.

(** [&http.Cookie{}]: every field at its zero value. *)
Definition zero : Cookie :=
  {| Name := ""; Value := ""; Path := ""; Domain := "";
     Expires := time.zeroTime; MaxAge := 0; Secure := false; HttpOnly := false |}.

Definition setName (v : string) (c : Cookie) : Cookie :=
  mkCookie v (Value c) (Path c) (Domain c) (Expires c) (MaxAge c) (Secure c) (HttpOnly c).
Definition setValue (v : string) (c : Cookie) : Cookie :=
  mkCookie (Name c) v (Path c) (Domain c) (Expires c) (MaxAge c) (Secure c) (HttpOnly c).
Definition setPath (v : string) (c : Cookie) : Cookie :=
  mkCookie (Name c) (Value c) v (Domain c) (Expires c) (MaxAge c) (Secure c) (HttpOnly c).
Definition setExpires (v : time.Time) (c : Cookie) : Cookie :=
  mkCookie (Name c) (Value c) (Path c) (Domain c) v (MaxAge c) (Secure c) (HttpOnly c).
Definition setMaxAge (v : Z) (c : Cookie) : Cookie :=
  mkCookie (Name c) (Value c) (Path c) (Domain c) (Expires c) v (Secure c) (HttpOnly c).
Definition setHttpOnly (v : bool) (c : Cookie) : Cookie :=
  mkCookie (Name c) (Value c) (Path c) (Domain c) (Expires c) (MaxAge c) (Secure c) v.

End http.

(** A [*Session] is an address in the heap of session objects. *)
Abbreviation loc := positive (only parsing).

(** ** Package [context]: the request layer *)

Module context.

(** A cookie value codec ([context.SecureCookie]); only its identity matters. *)
Abbreviation SecureCookie := nat (only parsing).

(** The cookie options the manager builds or forwards.  [CookieCustom] stands
    for any other option supplied by the caller. *)
Inductive CookieOption :=
| CookieAllowReclaim (cookieName : string)
| CookieAllowSubdomains (cookieName : string)
| CookieSecure
| CookieEncoding (encoding : SecureCookie) (cookieName : string)
| CookiePath (path : string)
| CookieCustom (tag : nat).

(** A value held by the request-scoped store ([interface{}]): a [*Session] or
    anything else. *)
Inductive Value :=
| VSession (p : loc)
| VOther (tag : string).

(** What the manager hands to the response. *)
Inductive CookieWrite :=
| Upserted (c : http.Cookie) (options : list CookieOption)
| Removed (name : string) (options : list CookieOption).

(** Modelled from the spec: the request context, of which [sessions.go] holds
    only the calls.  It can get and set a named cookie and carry per-request
    key/value state: the cookies of the request, the request life-cycle cookie
    options, the cookie writes handed to the response (in order), the
    request-scoped values and the number of times the handler chain was
    advanced. *)
Record Context := mkContext {
  request : gmap string string;
  options : list CookieOption;
  response : list CookieWrite;
  values : gmap string Value;
  nexts : nat
}.

(** What the request layer decides on its own: how a cookie is looked up
    ([ctx.GetCookie], which yields the empty string when there is none), and the
    far-future instant [CookieExpireUnlimited]. *)
Class RequestLayer := {
  GetCookie : Context -> string -> list CookieOption -> string;
  CookieExpireUnlimited : time.Time
}.

(** [ctx.UpsertCookie(cookie, options...)]. *)
Definition UpsertCookie (cookie : http.Cookie) (opts : list CookieOption)
    (c : Context) : Context :=
  mkContext (request c) (options c) (response c ++ [Upserted cookie opts])
            (values c) (nexts c).

(** [ctx.RemoveCookie(name, options...)]. *)
Definition RemoveCookie (name : string) (opts : list CookieOption)
    (c : Context) : Context :=
  mkContext (request c) (options c) (response c ++ [Removed name opts])
            (values c) (nexts c).

(** [ctx.AddCookieOptions(options...)]. *)
Definition AddCookieOptions (opts : list CookieOption) (c : Context) : Context :=
  mkContext (request c) (options c ++ opts) (response c) (values c) (nexts c).

(** [ctx.Values().Set(key, value)]. *)
Definition ValuesSet (key : string) (v : Value) (c : Context) : Context :=
  mkContext (request c) (options c) (response c) (<[key := v]> (values c)) (nexts c).

(** [ctx.Values().Get(key)]; [None] is the nil interface. *)
Definition ValuesGet (key : string) (c : Context) : option Value :=
  values c !! key.

(** [ctx.Values().Remove(key)]. *)
Definition ValuesRemove (key : string) (c : Context) : Context :=
  mkContext (request c) (options c) (response c) (delete key (values c)) (nexts c).

(** [ctx.Next()]: hands over to the rest of the handler chain. *)
Definition Next (c : Context) : Context :=
  mkContext (request c) (options c) (response c) (values c) (S (nexts c)).

(** The cookies written to the response by [UpsertCookie], in order. *)
Fixpoint upserts (l : list CookieWrite) : list http.Cookie :=
  match l with
  | [] => []
  | Upserted c _ :: r => c :: upserts r
  | Removed _ _ :: r => upserts r
  end.

End context.

Import context.

(** ** Package [sessions]: data *)

(** When a session stops being valid. *)
Inductive Deadline :=
| NoExpiration
| ExpireNow
| ExpireAt (t : time.Time).

(** Modelled from the spec: the Session Record, of which [sessions.go] only
    writes the [isNew] field.  It carries its id, its expiration, the [isNew]
    flag and its key/value store. *)
Record Session := mkSession {
  sid : string;
  expiresAt : Deadline;
  isNew : bool;
  store : gmap string Value
}.

Definition setIsNew (b : bool) (sess : Session) : Session :=
  mkSession (sid sess) (expiresAt sess) b (store sess).

(** The session objects, by address. *)
Abbreviation Heap := (gmap loc Session) (only parsing).

(** The two error values of the package, and any other error a database may
    report. *)
Inductive error :=
| ErrNotFound
| ErrNotImplemented
| ErrOther (msg : string).

(** Modelled from the spec: the configuration surface ([Config] is declared in
    a file that is not among the sources).  [SessionIDGenerator] is read as a
    function of the request context, [Encoding] is [None] for a nil codec. *)
Record Config := mkConfig {
  Cookie : string;
  Expires : time.Duration;
  AllowReclaim : bool;
  DisableSubdomainPersistence : bool;
  CookieSecureTLS : bool;
  SessionIDGenerator : Context -> string;
  Encoding : option SecureCookie
}.

(** The manager.  Its provider is reached through a pointer; the provider's
    state is kept in the [World]. *)
Record Sessions := mkSessions {
  config : Config;
  handlerCookieOpts : list CookieOption
}.

(** The provider as the manager sees it: the calls [sessions.go] makes on
    [s.provider], over the provider's own state [P] and the heap of session
    objects.  [Init] and [Read] return a [*Session]; [dbLen] is
    [provider.db.Len]. *)
Module Provider.

Class Ops (P : Type) := {
  Init : Sessions -> string -> time.Duration -> Heap -> P -> loc * Heap * P;
  Read : Sessions -> string -> time.Duration -> Heap -> P -> loc * Heap * P;
  UpdateExpiration : string -> time.Duration -> Heap -> P -> option error * Heap * P;
  Destroy : string -> Heap -> P -> Heap * P;
  DestroyAll : Heap -> P -> Heap * P;
  dbLen : string -> P -> Z
}.

End Provider.

(** ** The world a request runs in, and the manager's computations *)

Section World.

Context {P : Type}.

(** The heap of session objects, the provider, the request context and the
    clock: [clock n] is what the [n]-th reading of [time.Now()] returns and
    [reads] counts the readings made so far. *)
Record World := mkWorld {
  heap : Heap;
  prov : P;
  ctx : Context;
  clock : nat -> time.Time;
  reads : nat
}.

(** A call either returns a value in a new world or panics (a write through a
    [*Session] that addresses no session). *)
Inductive Res (A : Type) :=
| Done (a : A) (w : World)
| Panic.

Definition M (A : Type) : Type := World -> Res A.

End World.

Arguments World : clear implicits.
Arguments Res : clear implicits.
Arguments M : clear implicits.
Arguments Done {P A} a w.
Arguments Panic {P A}.

#[global] Instance M_ret {P} : MRet (M P) := fun A a w => Done a w.
#[global] Instance M_bind {P} : MBind (M P) := fun A B f m w =>
  match m w with
  | Done a w' => f a w'
  | Panic => Panic
  end.

Section Manager.

Context {P : Type} `{RL : RequestLayer} `{PO : Provider.Ops P}.

Definition withCtx (f : Context -> Context) : M P unit := fun w =>
  Done tt (mkWorld (heap w) (prov w) (f (ctx w)) (clock w) (reads w)).

Definition withProvider {A} (f : Heap -> P -> A * Heap * P) : M P A := fun w =>
  let '(a, h, p) := f (heap w) (prov w) in
  Done a (mkWorld h p (ctx w) (clock w) (reads w)).

(** [time.Now()]. *)
Definition Now : M P time.Time := fun w =>
  Done (clock w (reads w)) (mkWorld (heap w) (prov w) (ctx w) (clock w) (S (reads w))).

(** [time.Until(t)], that is [t.Sub(time.Now())]. *)
Definition Until (t : time.Time) : M P time.Duration :=
  now ← Now; mret (time.Sub t now).

(** [sess.isNew = b]. *)
Definition storeIsNew (sess : loc) (b : bool) : M P unit := fun w =>
  match heap w !! sess with
  | Some o => Done tt (mkWorld (<[sess := setIsNew b o]> (heap w)) (prov w) (ctx w)
                               (clock w) (reads w))
  | None => Panic
  end.

(** [ctx.GetCookie(name, options...)]. *)
Definition getCookie (name : string) (opts : list CookieOption) : M P string :=
  fun w => Done (GetCookie (ctx w) name opts) w.

(** [s.config.SessionIDGenerator(ctx)]. *)
Definition generateID (s : Sessions) : M P string :=
  fun w => Done (SessionIDGenerator (config s) (ctx w)) w.

(** [s.provider.db.Len(sid)]. *)
Definition dbLength (sid : string) : M P Z :=
  fun w => Done (Provider.dbLen sid (prov w)) w.

(** [GetCookieOptions] returns any cookie options registered for the [Handler]
    method. *)
Definition GetCookieOptions (s : Sessions) : list CookieOption :=
  handlerCookieOpts s.

(** [updateCookie] writes the session cookie of [sid] with the given
    expiration. *)
Definition updateCookie (s : Sessions) (sid : string) (expires : time.Duration)
    (options : list CookieOption) : M P unit :=
  let cookie := http.zero in
  let cookie := http.setName (Cookie (config s)) cookie in
  let cookie := http.setValue sid cookie in
  let cookie := http.setPath "/" cookie in
  let cookie := http.setHttpOnly true cookie in
  cookie ← (if expires >=? 0 then
              cookie ← (if expires =? 0 then
                          mret (http.setExpires CookieExpireUnlimited cookie)
                        else
                          now ← Now;
                          mret (http.setExpires (time.Add now expires) cookie));
              d ← Until (http.Expires cookie);
              mret (http.setMaxAge (time.int_of_float64 (time.Seconds d)) cookie)
            else mret cookie);
  withCtx (UpsertCookie cookie options).

(** [Start] creates or retrieves an existing session for the request. *)
Definition Start (s : Sessions) (cookieOptions : list CookieOption) : M P loc :=
  cookieValue ← getCookie (Cookie (config s)) cookieOptions;
  if String.eqb cookieValue "" then
    sid ← generateID s;
    sess ← withProvider (Provider.Init s sid (Expires (config s)));
    n ← dbLength sid;
    storeIsNew sess (n =? 0);;
    updateCookie s sid (Expires (config s)) cookieOptions;;
    mret sess
  else
    withProvider (Provider.Read s cookieValue (Expires (config s))).

Definition sessionContextKey : string := "iris.session".

(** The cookie options [Handler] derives from the configuration. *)
Definition requestOptions (s : Sessions) : list CookieOption :=
  let requestOptions : list CookieOption := [] in
  let requestOptions :=
    if AllowReclaim (config s)
    then requestOptions ++ [CookieAllowReclaim (Cookie (config s))]
    else requestOptions in
  let requestOptions :=
    if negb (DisableSubdomainPersistence (config s))
    then requestOptions ++ [CookieAllowSubdomains (Cookie (config s))]
    else requestOptions in
  let requestOptions :=
    if CookieSecureTLS (config s)
    then requestOptions ++ [CookieSecure]
    else requestOptions in
  match Encoding (config s) with
  | Some enc => requestOptions ++ [CookieEncoding enc (Cookie (config s))]
  | None => requestOptions
  end.

(** [Handler] records the cookie options on the manager and returns the
    middleware; the pair is the manager after the call and the middleware. *)
Definition Handler (s : Sessions) (cookieOptions : list CookieOption)
    : Sessions * M P unit :=
  let s := mkSessions (config s) cookieOptions in
  let requestOptions := requestOptions s in
  (s,
   withCtx (AddCookieOptions requestOptions);;
   session ← Start s cookieOptions;
   withCtx (ValuesSet sessionContextKey (VSession session));;
   withCtx Next).

(** [Get] returns the [*Session] of the request life cycle, [None] for nil. *)
Definition Get (c : Context) : option loc :=
  match ValuesGet sessionContextKey c with
  | Some (VSession sess) => Some sess
  | _ => None
  end.

(** [StartWithPath]: same as [Start] with the cookie path option. *)
Definition StartWithPath (s : Sessions) (path : string) : M P loc :=
  Start s [CookiePath path].

(** [UpdateExpiration] changes the expire date of a session. *)
Definition UpdateExpiration (s : Sessions) (expires : time.Duration)
    (cookieOptions : list CookieOption) : M P (option error) :=
  cookieValue ← getCookie (Cookie (config s)) [];
  if String.eqb cookieValue "" then mret (Some ErrNotFound)
  else
    err ← withProvider (Provider.UpdateExpiration cookieValue expires);
    (if bool_decide (err = None) || (expires =? -1)
     then updateCookie s cookieValue expires cookieOptions
     else mret tt);;
    mret err.

(** [ShiftExpiration] moves the expire date by the configured timeout. *)
Definition ShiftExpiration (s : Sessions) (cookieOptions : list CookieOption)
    : M P (option error) :=
  UpdateExpiration s (Expires (config s)) cookieOptions.

Definition unitProvider (f : Heap -> P -> Heap * P) (h : Heap) (p : P)
    : unit * Heap * P :=
  let '(h', p') := f h p in (tt, h', p').

(** [Destroy] removes the session data, the cookie and the context's session
    value. *)
Definition Destroy (s : Sessions) : M P unit :=
  cookieValue ← getCookie (Cookie (config s)) [];
  if String.eqb cookieValue "" then mret tt
  else
    withCtx (ValuesRemove sessionContextKey);;
    withCtx (RemoveCookie (Cookie (config s)) []);;
    withProvider (unitProvider (Provider.Destroy cookieValue)).

(** [DestroyByID] removes the session entry from the server side. *)
Definition DestroyByID (s : Sessions) (sid : string) : M P unit :=
  withProvider (unitProvider (Provider.Destroy sid)).

(** [DestroyAll] removes all sessions from the server side. *)
Definition DestroyAll (s : Sessions) : M P unit :=
  withProvider (unitProvider Provider.DestroyAll).

End Manager.

(** ** The provider, from the specification *)

Module provider.

(** Modelled from the spec: a Database, the pluggable read path for session
    data ([Database] is declared outside [sessions.go]).  Given an id it
    enumerates the persisted keys and values; [persistsDeadline] says whether
    it can store a new expiration. *)
Record Database := mkDatabase {
  entries : gmap string (gmap string Value);
  persistsDeadline : bool
}.

(** Modelled from the spec: the Provider, the registry of the active Session
    Records by id ([provider] is declared outside [sessions.go]), with the
    databases and the destroy listeners in registration order, the listener
    invocations made so far and the provider's reading of the clock. *)
Record provider := mkProvider {
  sessions : gmap string loc;
  databases : list Database;
  destroyListeners : list nat;
  notified : list (nat * string);
  now : time.Time
}.

Definition entriesOf (db : Database) (id : string) : gmap string Value :=
  default ∅ (entries db !! id).

Definition hasData (db : Database) (id : string) : bool :=
  negb (Nat.eqb (size (entriesOf db id)) 0).

(** The databases are consulted in registration order until one yields data. *)
Fixpoint lookupData (dbs : list Database) (id : string) : gmap string Value :=
  match dbs with
  | [] => ∅
  | db :: rest => if hasData db id then entriesOf db id else lookupData rest id
  end.

(** Modelled from the spec: [Len(id)], the number of entries found for [id]
    across the registered databases. *)
Definition Len (p : provider) (id : string) : Z :=
  Z.of_nat (size (lookupData (databases p) id)).

(** Some record or some database has this id. *)
Definition known (p : provider) (id : string) : bool :=
  bool_decide (is_Some (sessions p !! id)) || existsb (fun db => hasData db id) (databases p).

(** No record and no database has this id: the id was never seen. *)
Definition unseen (p : provider) (id : string) : Prop :=
  sessions p !! id = None /\
  forall db, db ∈ databases p -> entries db !! id = None.

(** Modelled from the spec: the schedule of an expiration ([0] unlimited,
    positive an absolute deadline, negative immediate expiry on the next
    check). *)
Definition deadline (t : time.Time) (expires : time.Duration) : Deadline :=
  if expires =? 0 then NoExpiration
  else if expires <? 0 then ExpireNow
  else ExpireAt (time.Add t expires).

Definition register (id : string) (l : loc) (p : provider) : provider :=
  mkProvider (<[id := l]> (sessions p)) (databases p) (destroyListeners p)
             (notified p) (now p).

(** Modelled from the spec: [Init] creates a new Record for [id] with an empty
    store, sets [isNew] to (no prior entries found for [id] across the
    registered databases) and schedules its expiration.  A record already
    registered under [id] is replaced. *)
Definition Init (man : Sessions) (id : string) (expires : time.Duration)
    (h : Heap) (p : provider) : loc * Heap * provider :=
  let l := fresh (dom h) in
  let sess := mkSession id (deadline (now p) expires) (Len p id =? 0) ∅ in
  (l, <[l := sess]> h, register id l p).

(** Modelled from the spec: [Read] looks up the Record of [id]; if missing it
    behaves like [Init].  A record met again is no longer new. *)
Definition Read (man : Sessions) (id : string) (expires : time.Duration)
    (h : Heap) (p : provider) : loc * Heap * provider :=
  match sessions p !! id with
  | Some l => (l, alter (setIsNew false) l h, p)
  | None => Init man id expires h p
  end.

Definition setExpiresAt (d : Deadline) (sess : Session) : Session :=
  mkSession (sid sess) d (isNew sess) (store sess).

(** Modelled from the spec: [UpdateExpiration] resets the deadline of the
    Record of [id].  It fails with [ErrNotFound] if no Record and no database
    has this id, and with [ErrNotImplemented] if a registered database cannot
    persist the new deadline. *)
Definition UpdateExpiration (id : string) (expires : time.Duration)
    (h : Heap) (p : provider) : option error * Heap * provider :=
  if known p id then
    let h' := match sessions p !! id with
              | Some l => alter (setExpiresAt (deadline (now p) expires)) l h
              | None => h
              end in
    if forallb persistsDeadline (databases p) then (None, h', p)
    else (Some ErrNotImplemented, h', p)
  else (Some ErrNotFound, h, p).

Definition release (id : string) (db : Database) : Database :=
  mkDatabase (delete id (entries db)) (persistsDeadline db).

Definition notify (id : string) (p : provider) : list (nat * string) :=
  notified p ++ map (fun ln => (ln, id)) (destroyListeners p).

(** Modelled from the spec: [Destroy] removes the Record, detaches the backing
    database entries and invokes the destroy listeners with the id, in
    registration order; on an id without a Record it does nothing. *)
Definition Destroy (id : string) (h : Heap) (p : provider) : Heap * provider :=
  match sessions p !! id with
  | Some l =>
      (h, mkProvider (delete id (sessions p)) (map (release id) (databases p))
                     (destroyListeners p) (notify id p) (now p))
  | None => (h, p)
  end.

(** Modelled from the spec: [DestroyAll] drains the registry, invoking the
    destroy listeners for each id. *)
Definition DestroyAll (h : Heap) (p : provider) : Heap * provider :=
  foldr (fun id hp => Destroy id hp.1 hp.2) (h, p) (map fst (map_to_list (sessions p))).

(** Modelled from the spec: [RegisterDatabase] appends a Database to the
    consulted list. *)
Definition RegisterDatabase (db : Database) (p : provider) : provider :=
  mkProvider (sessions p) (databases p ++ [db]) (destroyListeners p)
             (notified p) (now p).

(** A provider with an empty registry, as [newProvider] leaves it. *)
Definition newProvider (t : time.Time) : provider :=
  mkProvider ∅ [] [] [] t.

Definition ops : Provider.Ops provider :=
  Provider.Build_Ops provider Init Read UpdateExpiration Destroy DestroyAll
                    (fun id p => Len p id).

End provider.

(** ** A plain request layer and sample worlds *)

(** Modelled from the spec: a request layer that looks a cookie up among the
    cookies the request carries, yielding the empty string when there is
    none.  [CookieExpireUnlimited] is taken at 2051-09-11 12:00 UTC. *)
Definition plainLayer : RequestLayer :=
  {| GetCookie := fun c name _ => default "" (request c !! name);
     CookieExpireUnlimited := 64713643200 * time.Second |}.

(** 2026-11-01 12:00 UTC. *)
Definition t0 : time.Time := 63929131200 * time.Second.

(** A clock that advances by one millisecond at each reading. *)
Definition sampleClock (n : nat) : time.Time := t0 + Z.of_nat n * 1000000.

Definition sampleConfig (expires : time.Duration) : Config :=
  {| Cookie := "sid"; Expires := expires; AllowReclaim := false;
     DisableSubdomainPersistence := false; CookieSecureTLS := false;
     SessionIDGenerator := fun _ => "abc123"; Encoding := None |}.

Definition sampleManager (expires : time.Duration) : Sessions :=
  mkSessions (sampleConfig expires) [].

Definition emptyContext : Context := mkContext ∅ [] [] ∅ 0.

(** A request that carries the cookie [sid=v]. *)
Definition contextWith (v : string) : Context :=
  mkContext (<["sid" := v]> ∅) [] [] ∅ 0.

(** A first visit: nothing registered, no cookie in the request. *)
Definition firstVisit : World provider.provider :=
  mkWorld ∅ (provider.newProvider t0) emptyContext sampleClock 0.

(** A request presenting a cookie whose id the provider does not know. *)
Definition staleVisit : World provider.provider :=
  mkWorld ∅ (provider.newProvider t0) (contextWith "gone") sampleClock 0.

(** A request presenting the cookie of a registered session. *)
Definition returningVisit : World provider.provider :=
  mkWorld (<[1%positive := mkSession "abc123" NoExpiration false (<["user" := VOther "alice"]> ∅)]> ∅)
          (provider.register "abc123" 1%positive (provider.newProvider t0))
          (contextWith "abc123") sampleClock 0.

(** A request presenting the cookie of a registered session, once the
    middleware has attached the session to it. *)
Definition attachedVisit : World provider.provider :=
  mkWorld (heap returningVisit) (prov returningVisit)
          (Next (ValuesSet "iris.session" (VSession 1%positive) (contextWith "abc123")))
          sampleClock 0.

(** The cookie a first visit receives from a manager whose expiration is
    negative. *)
Definition cookieOnNegative : http.Cookie :=
  {| http.Name := "sid"; http.Value := "abc123"; http.Path := "/";
     http.Domain := ""; http.Expires := 0; http.MaxAge := 0;
     http.Secure := false; http.HttpOnly := true |}.

(** The cookie a first visit receives from a manager whose expiration is
    zero, when the clock reads 2026-11-01 12:00 UTC. *)
Definition cookieOnZero : http.Cookie :=
  {| http.Name := "sid"; http.Value := "abc123"; http.Path := "/";
     http.Domain := ""; http.Expires := 64713643200000000000;
     http.MaxAge := 784512000;
     http.Secure := false; http.HttpOnly := true |}.

(** One hour. *)
Definition hour : time.Duration := 3600 * time.Second.

(** ** What the manager writes, in closed form *)

Section Written.

Context `{RL : RequestLayer}.

(** The session cookie before any expiration is set on it. *)
Definition bareCookie (name sid : string) : http.Cookie :=
  {| http.Name := name; http.Value := sid; http.Path := "/"; http.Domain := "";
     http.Expires := time.zeroTime; http.MaxAge := 0; http.Secure := false;
     http.HttpOnly := true |}.

(** Whole seconds left from [t] until [deadline], as [MaxAge] receives them. *)
Definition secondsUntil (deadline t : time.Time) : Z :=
  time.int_of_float64 (time.Seconds (time.Sub deadline t)).

(** The cookie written for [sid] and [expires] when the clock reads [t1] and
    then [t2]. *)
Definition sessionCookie (name sid : string) (expires : time.Duration)
    (t1 t2 : time.Time) : http.Cookie :=
  if expires <? 0 then bareCookie name sid
  else if expires =? 0 then
    http.setMaxAge (secondsUntil CookieExpireUnlimited t1)
      (http.setExpires CookieExpireUnlimited (bareCookie name sid))
  else
    http.setMaxAge (secondsUntil (time.Add t1 expires) t2)
      (http.setExpires (time.Add t1 expires) (bareCookie name sid)).

(** The number of clock readings a cookie write makes. *)
Definition clockReads (expires : time.Duration) : nat :=
  if expires <? 0 then 0%nat else if expires =? 0 then 1%nat else 2%nat.

(** The world after the session cookie of [sid] was written. *)
Definition cookieWritten {P} (s : Sessions) (sid : string) (expires : time.Duration)
    (opts : list CookieOption) (w : World P) : World P :=
  mkWorld (heap w) (prov w)
          (UpsertCookie (sessionCookie (Cookie (config s)) sid expires
                           (clock w (reads w)) (clock w (S (reads w))))
                        opts (ctx w))
          (clock w) (reads w + clockReads expires)%nat.

End Written.

(** ** Registration on the provider

    [UseDatabase] and [OnDestroy] hand a database and destroy listeners over to
    the provider.  [Database] and [DestroyListener] values are opaque to the
    manager: [D] and [L] stand for them. *)

Module Registration.

(** The two registration calls [sessions.go] makes on [s.provider]. *)
Class Ops (P D L : Type) := {
  RegisterDatabase : D -> Heap -> P -> Heap * P;
  registerDestroyListener : L -> Heap -> P -> Heap * P
}.

End Registration.

Section Registering.

Context {P D L : Type} `{RO : Registration.Ops P D L}.

(** [UseDatabase] adds a session database to the manager's provider. *)
Definition UseDatabase (s : Sessions) (db : D) : M P unit :=
  withProvider (unitProvider (Registration.RegisterDatabase db)).

(** [OnDestroy] registers one or more destroy listeners:
    [for _, ln := range listeners { s.provider.registerDestroyListener(ln) }]. *)
Fixpoint OnDestroy (s : Sessions) (listeners : list L) : M P unit :=
  match listeners with
  | [] => mret tt
  | ln :: listeners =>
      withProvider (unitProvider (Registration.registerDestroyListener ln));;
      OnDestroy s listeners
  end.

(** The heap and the provider after the listeners were registered one by one. *)
Definition registered (listeners : list L) (h : Heap) (p : P) : Heap * P :=
  foldl (fun hp ln => Registration.registerDestroyListener ln hp.1 hp.2) (h, p) listeners.

End Registering.

(** ** How a cookie's expiration reads on the wire

    [net/http] writes [Max-Age] when [MaxAge] is not zero ([MaxAge<0] means
    delete the cookie now, [MaxAge>0] gives the seconds left) and writes
    [Expires] only for instants from the year 1601 on. *)

Definition validCookieExpires (t : time.Time) : bool :=
  50491123200 * time.Second <=? t.

(** The cookie carries neither [Max-Age] nor [Expires]: the browser keeps it
    until it closes. *)
Definition sessionScoped (c : http.Cookie) : Prop :=
  http.MaxAge c = 0 /\ validCookieExpires (http.Expires c) = false.

(** The browser drops the cookie as soon as it receives it at instant [t]. *)
Definition expiredOnArrival (t : time.Time) (c : http.Cookie) : Prop :=
  http.MaxAge c < 0 \/
  (http.MaxAge c = 0 /\ validCookieExpires (http.Expires c) = true /\ http.Expires c <= t).

(** [UpdateExpiration] rewrites the cookie when the provider reported no error
    or the duration is the value [-1]. *)
Definition rewritesCookie (err : option error) (expires : time.Duration) : bool :=
  bool_decide (err = None) || (expires =? -1).

(** ** Facts about the monad and the cookie write *)

(** [Seconds] followed by [int] drops the fraction of a second, except where
    the float64 sum rounds it up to the next second. *)
Example whole_seconds_truncate :
  time.int_of_float64 (time.Seconds 3599999000000) = 3599 /\
  time.int_of_float64 (time.Seconds (-1999999999)) = -1 /\
  time.int_of_float64 (time.Seconds 10000000999999999) = 10000000.
Proof. repeat split. Qed.

Example whole_seconds_round_up :
  time.int_of_float64 (time.Seconds 20000000999999999) = 20000001.
Proof. reflexivity. Qed.

(** Out of the int64 range a difference of instants is clamped. *)
Example Sub_clamps :
  time.Sub time.zeroTime (63929131200 * time.Second) = time.minDuration.
Proof. reflexivity. Qed.

Lemma upserts_app (l1 l2 : list CookieWrite) :
  upserts (l1 ++ l2) = upserts l1 ++ upserts l2.
Proof.
  induction l1 as [|[c o|n o] l1 IH]; cbn; [reflexivity| |exact IH].
  now rewrite IH.
Qed.

Lemma upserts_app_upserted (l : list CookieWrite) c o :
  upserts (l ++ [Upserted c o]) = upserts l ++ [c].
Proof. now rewrite upserts_app. Qed.

Lemma upserts_app_removed (l : list CookieWrite) n o :
  upserts (l ++ [Removed n o]) = upserts l.
Proof. rewrite upserts_app. cbn. now rewrite app_nil_r. Qed.

(** Settles the sign tests on a duration from a hypothesis on its sign. *)
Ltac sign_of d :=
  repeat match goal with
  | |- context [d <? 0] =>
      first [ replace (d <? 0) with true by lia
            | replace (d <? 0) with false by lia ]
  | |- context [d =? 0] =>
      first [ replace (d =? 0) with true by lia
            | replace (d =? 0) with false by lia ]
  | |- context [d >=? 0] =>
      first [ replace (d >=? 0) with true by lia
            | replace (d >=? 0) with false by lia ]
  end.

Section ManagerFacts.

Context {P : Type} `{RL : RequestLayer} `{PO : Provider.Ops P}.

Lemma bind_run {A B} (m : M P A) (f : A -> M P B) (w : World P) :
  (m ≫= f) w = match m w with Done a w' => f a w' | Panic => Panic end.
Proof. reflexivity. Qed.

Lemma world_eta (w : World P) :
  mkWorld (heap w) (prov w) (ctx w) (clock w) (reads w) = w.
Proof. destruct w; reflexivity. Qed.

Lemma updateCookie_run (s : Sessions) (sid : string) (expires : time.Duration)
    (opts : list CookieOption) (w : World P) :
  updateCookie s sid expires opts w = Done tt (cookieWritten s sid expires opts w).
Proof.
  unfold updateCookie, cookieWritten, sessionCookie, clockReads, secondsUntil.
  rewrite bind_run.
  destruct (expires <? 0) eqn:Hneg.
  - assert ((expires >=? 0) = false) as -> by lia.
    cbn. rewrite Nat.add_0_r. reflexivity.
  - assert ((expires >=? 0) = true) as -> by lia.
    destruct (expires =? 0) eqn:Hz; cbn.
    + rewrite Nat.add_1_r. reflexivity.
    + replace (reads w + 2)%nat with (S (S (reads w))) by lia. reflexivity.
Qed.

Lemma withProvider_run {A} (f : Heap -> P -> A * Heap * P) (w : World P) a h p :
  f (heap w) (prov w) = (a, h, p) ->
  withProvider f w = Done a (mkWorld h p (ctx w) (clock w) (reads w)).
Proof. intros E. unfold withProvider. rewrite E. reflexivity. Qed.

Lemma sessionCookie_name_value name sid expires t1 t2 :
  http.Name (sessionCookie name sid expires t1 t2) = name /\
  http.Value (sessionCookie name sid expires t1 t2) = sid /\
  http.Path (sessionCookie name sid expires t1 t2) = "/" /\
  http.HttpOnly (sessionCookie name sid expires t1 t2) = true.
Proof. unfold sessionCookie. repeat case_match; repeat split. Qed.

Lemma Start_absent (s : Sessions) (opts : list CookieOption) (w : World P)
    sess h1 p1 o :
  GetCookie (ctx w) (Cookie (config s)) opts = "" ->
  Provider.Init s (SessionIDGenerator (config s) (ctx w)) (Expires (config s))
       (heap w) (prov w) = (sess, h1, p1) ->
  h1 !! sess = Some o ->
  Start s opts w =
    Done sess
      (cookieWritten s (SessionIDGenerator (config s) (ctx w)) (Expires (config s)) opts
         (mkWorld (<[sess := setIsNew (Provider.dbLen (SessionIDGenerator (config s) (ctx w)) p1 =? 0) o]> h1)
                  p1 (ctx w) (clock w) (reads w))).
Proof.
  intros Hc Hi Ho. unfold Start, getCookie, generateID, dbLength.
  rewrite bind_run, Hc. cbn [String.eqb].
  rewrite bind_run, bind_run. erewrite withProvider_run by exact Hi.
  rewrite bind_run, bind_run. unfold storeIsNew. cbn [heap prov ctx clock reads].
  rewrite Ho, bind_run, updateCookie_run. reflexivity.
Qed.

Lemma Start_dangling (s : Sessions) (opts : list CookieOption) (w : World P)
    sess h1 p1 :
  GetCookie (ctx w) (Cookie (config s)) opts = "" ->
  Provider.Init s (SessionIDGenerator (config s) (ctx w)) (Expires (config s))
       (heap w) (prov w) = (sess, h1, p1) ->
  h1 !! sess = None ->
  Start s opts w = Panic.
Proof.
  intros Hc Hi Ho. unfold Start, getCookie, generateID, dbLength.
  rewrite bind_run, Hc. cbn [String.eqb].
  rewrite bind_run, bind_run. erewrite withProvider_run by exact Hi.
  rewrite bind_run, bind_run. unfold storeIsNew. cbn [heap prov ctx clock reads].
  now rewrite Ho.
Qed.

Lemma Start_present (s : Sessions) (opts : list CookieOption) (w : World P)
    sess h1 p1 :
  GetCookie (ctx w) (Cookie (config s)) opts <> "" ->
  Provider.Read s (GetCookie (ctx w) (Cookie (config s)) opts) (Expires (config s))
       (heap w) (prov w) = (sess, h1, p1) ->
  Start s opts w = Done sess (mkWorld h1 p1 (ctx w) (clock w) (reads w)).
Proof.
  intros Hc Hr. unfold Start, getCookie, generateID, dbLength. rewrite bind_run.
  destruct (String.eqb_spec (GetCookie (ctx w) (Cookie (config s)) opts) "") as [E|_];
    [contradiction|].
  apply withProvider_run, Hr.
Qed.

(** C1: when the configured cookie is absent, [Start] generates an id with the
    configured generator, calls [Provider.Init] with it and the configured
    expiration, sets the [isNew] flag of the session [Init] returned, writes
    one fresh cookie carrying the id (and the configured expiration) and
    returns that session; when the cookie is present,
    [Start] calls [Provider.Read] with its value and returns that session,
    leaving the request context as it was: no cookie is written. *)
Theorem Start_creates_or_reads (s : Sessions) (cookieOptions : list CookieOption)
    (w : World P) :
  let name := Cookie (config s) in
  let expires := Expires (config s) in
  let cookieValue := GetCookie (ctx w) name cookieOptions in
  (cookieValue = "" ->
   let id := SessionIDGenerator (config s) (ctx w) in
   let cookie := sessionCookie name id expires (clock w (reads w)) (clock w (S (reads w))) in
   forall sess h1 p1 o,
     Provider.Init s id expires (heap w) (prov w) = (sess, h1, p1) ->
     h1 !! sess = Some o ->
     exists w',
       Start s cookieOptions w = Done sess w' /\
       prov w' = p1 /\
       heap w' = <[sess := setIsNew (Provider.dbLen id p1 =? 0) o]> h1 /\
       ctx w' = UpsertCookie cookie cookieOptions (ctx w) /\
       upserts (response (ctx w')) = upserts (response (ctx w)) ++ [cookie] /\
       http.Name cookie = name /\ http.Value cookie = id)
  /\
  (cookieValue <> "" ->
   forall sess h1 p1,
     Provider.Read s cookieValue expires (heap w) (prov w) = (sess, h1, p1) ->
     exists w',
       Start s cookieOptions w = Done sess w' /\
       prov w' = p1 /\ heap w' = h1 /\ ctx w' = ctx w).
Proof.
  intros name expires cookieValue. split.
  - intros Hc id cookie sess h1 p1 o Hi Ho.
    eexists. split; [apply (Start_absent s cookieOptions w sess h1 p1 o Hc Hi Ho)|].
    cbn [cookieWritten heap prov ctx clock reads UpsertCookie response].
    destruct (sessionCookie_name_value name id expires (clock w (reads w))
                (clock w (S (reads w)))) as (Hn & Hv & _).
    repeat split; try assumption.
    apply upserts_app_upserted.
  - intros Hc sess h1 p1 Hr.
    eexists. split; [apply (Start_present s cookieOptions w sess h1 p1 Hc Hr)|].
    repeat split.
Qed.

Lemma UpdateExpiration_absent (s : Sessions) (expires : time.Duration)
    (opts : list CookieOption) (w : World P) :
  GetCookie (ctx w) (Cookie (config s)) [] = "" ->
  UpdateExpiration s expires opts w = Done (Some ErrNotFound) w.
Proof.
  intros Hc. unfold UpdateExpiration, getCookie. rewrite bind_run, Hc. reflexivity.
Qed.

Lemma UpdateExpiration_present (s : Sessions) (expires : time.Duration)
    (opts : list CookieOption) (w : World P) err h1 p1 :
  GetCookie (ctx w) (Cookie (config s)) [] <> "" ->
  Provider.UpdateExpiration (GetCookie (ctx w) (Cookie (config s)) []) expires
                    (heap w) (prov w) = (err, h1, p1) ->
  UpdateExpiration s expires opts w =
    Done err
      (if rewritesCookie err expires
       then cookieWritten s (GetCookie (ctx w) (Cookie (config s)) []) expires opts
              (mkWorld h1 p1 (ctx w) (clock w) (reads w))
       else mkWorld h1 p1 (ctx w) (clock w) (reads w)).
Proof.
  intros Hc Hu. unfold UpdateExpiration, getCookie. rewrite bind_run.
  destruct (String.eqb_spec (GetCookie (ctx w) (Cookie (config s)) []) "") as [E|_];
    [contradiction|].
  rewrite bind_run. erewrite withProvider_run by exact Hu.
  rewrite bind_run. fold (rewritesCookie err expires).
  destruct (rewritesCookie err expires).
  - rewrite updateCookie_run. reflexivity.
  - reflexivity.
Qed.

Lemma rewritesCookie_iff (err : option error) (expires : time.Duration) :
  rewritesCookie err expires = true <-> err = None \/ expires = -1.
Proof.
  unfold rewritesCookie. rewrite orb_true_iff, bool_decide_eq_true, Z.eqb_eq.
  reflexivity.
Qed.

(** The expiration of the cookie written at [expires] when the clock reads
    [t1] and then [t2]. *)
Lemma sessionCookie_expiration name sid (expires : time.Duration) (t1 t2 : time.Time) :
  let cookie := sessionCookie name sid expires t1 t2 in
  (expires < 0 ->
     http.Expires cookie = time.zeroTime /\ http.MaxAge cookie = 0 /\
     sessionScoped cookie) /\
  (expires = 0 ->
     http.Expires cookie = CookieExpireUnlimited /\
     http.MaxAge cookie = secondsUntil CookieExpireUnlimited t1) /\
  (0 < expires ->
     http.Expires cookie = time.Add t1 expires /\
     http.MaxAge cookie = secondsUntil (time.Add t1 expires) t2).
Proof.
  unfold sessionCookie. split; [|split]; intros Hsign.
  - sign_of expires. repeat split.
  - subst expires. split; reflexivity.
  - sign_of expires. split; reflexivity.
Qed.

(** C2 (as amended): every cookie the manager writes ([updateCookie], through
    which go [Start] on a new session and the expiration update) is one
    cookie handed to the response whose expiration follows a three-way
    policy.  A negative duration leaves [Expires] and [MaxAge] at their zero
    values, so the cookie carries no expiration attribute and lasts until the
    browser closes; a zero duration sets [Expires] to [CookieExpireUnlimited]
    and [MaxAge] to the whole seconds left until then; a positive duration
    sets [Expires] to the current time plus the duration and [MaxAge] to the
    whole seconds left until then. *)
Theorem cookie_expiration_policy (s : Sessions) (sid : string)
    (expires : time.Duration) (opts : list CookieOption) (w : World P) :
  let name := Cookie (config s) in
  let t1 := clock w (reads w) in
  let t2 := clock w (S (reads w)) in
  exists cookie,
    updateCookie s sid expires opts w =
      Done tt (mkWorld (heap w) (prov w) (UpsertCookie cookie opts (ctx w))
                       (clock w) (reads w + clockReads expires)) /\
    (GetCookie (ctx w) name opts = "" ->
     SessionIDGenerator (config s) (ctx w) = sid ->
     Expires (config s) = expires ->
     forall sess w', Start s opts w = Done sess w' ->
       ctx w' = UpsertCookie cookie opts (ctx w)) /\
    (GetCookie (ctx w) name [] = sid -> sid <> "" ->
     forall err w', UpdateExpiration s expires opts w = Done err w' ->
       ctx w' = ctx w \/ ctx w' = UpsertCookie cookie opts (ctx w)) /\
    http.Name cookie = name /\
    http.Value cookie = sid /\
    http.Path cookie = "/" /\
    http.HttpOnly cookie = true /\
    (expires < 0 ->
       http.Expires cookie = time.zeroTime /\ http.MaxAge cookie = 0 /\
       sessionScoped cookie) /\
    (expires = 0 ->
       http.Expires cookie = CookieExpireUnlimited /\
       http.MaxAge cookie = secondsUntil CookieExpireUnlimited t1) /\
    (0 < expires ->
       http.Expires cookie = time.Add t1 expires /\
       http.MaxAge cookie = secondsUntil (time.Add t1 expires) t2).
Proof.
  intros name t1 t2.
  exists (sessionCookie name sid expires t1 t2).
  split; [apply updateCookie_run|].
  split; [|split].
  - intros Hc Hg He sess w' HS. subst sid expires.
    destruct (Provider.Init s (SessionIDGenerator (config s) (ctx w)) (Expires (config s))
                   (heap w) (prov w)) as [[l h1] p1] eqn:Hi.
    destruct (h1 !! l) as [o|] eqn:Ho.
    + rewrite (Start_absent s opts w l h1 p1 o Hc Hi Ho) in HS.
      injection HS as _ <-. reflexivity.
    + rewrite (Start_dangling s opts w l h1 p1 Hc Hi Ho) in HS. discriminate.
  - intros Hv Hne err w' HU.
    destruct (Provider.UpdateExpiration sid expires (heap w) (prov w)) as [[e h1] p1] eqn:Hp.
    assert (GetCookie (ctx w) (Cookie (config s)) [] <> "") as Hc
      by (fold name; now rewrite Hv).
    rewrite (UpdateExpiration_present s expires opts w e h1 p1 Hc) in HU
      by (fold name; now rewrite Hv).
    injection HU as _ <-. fold name. rewrite Hv.
    destruct (rewritesCookie e expires); [right|left]; reflexivity.
  - destruct (sessionCookie_name_value name sid expires t1 t2) as (Hn & Hv & Hp & Hh).
    repeat (split; [assumption|]).
    apply sessionCookie_expiration.
Qed.

(** [UpdateExpiration] always returns: it makes no write through a session
    pointer. *)
Lemma UpdateExpiration_returns (s : Sessions) (expires : time.Duration)
    (opts : list CookieOption) (w : World P) :
  exists err w', UpdateExpiration s expires opts w = Done err w'.
Proof.
  destruct (String.eqb_spec (GetCookie (ctx w) (Cookie (config s)) []) "") as [E|N].
  - eexists _, _. apply UpdateExpiration_absent, E.
  - destruct (Provider.UpdateExpiration (GetCookie (ctx w) (Cookie (config s)) []) expires
                (heap w) (prov w)) as [[err h1] p1] eqn:Hu.
    eexists _, _. apply (UpdateExpiration_present s expires opts w err h1 p1 N Hu).
Qed.

(** C9: [ShiftExpiration] is [UpdateExpiration] at the configured expiration:
    in every world both return, with the same error and in the same resulting
    world (the same provider, heap and request context, hence the same
    cookie). *)
Theorem ShiftExpiration_is_UpdateExpiration (s : Sessions)
    (cookieOptions : list CookieOption) (w : World P) :
  ShiftExpiration s cookieOptions w =
    UpdateExpiration s (Expires (config s)) cookieOptions w /\
  exists err w',
    ShiftExpiration s cookieOptions w = Done err w' /\
    UpdateExpiration s (Expires (config s)) cookieOptions w = Done err w'.
Proof.
  split; [reflexivity|].
  destruct (UpdateExpiration_returns s (Expires (config s)) cookieOptions w)
    as (err & w' & HU).
  exists err, w'. split; [|exact HU].
  unfold ShiftExpiration. exact HU.
Qed.

(** C10: with a cookie present and a negative duration on which the provider
    update fails, the provider's error is returned to the caller; the cookie
    is rewritten (with no expiration attribute set) when the duration is
    exactly [-1], and for every other negative duration the request context
    is left as it was. *)
Theorem UpdateExpiration_failed_update (s : Sessions) (expires : time.Duration)
    (cookieOptions : list CookieOption) (w : World P) (e : error) h1 p1 :
  let name := Cookie (config s) in
  let cookieValue := GetCookie (ctx w) name [] in
  cookieValue <> "" ->
  expires < 0 ->
  Provider.UpdateExpiration cookieValue expires (heap w) (prov w) = (Some e, h1, p1) ->
  exists w',
    UpdateExpiration s expires cookieOptions w = Done (Some e) w' /\
    heap w' = h1 /\ prov w' = p1 /\
    (expires = -1 ->
     ctx w' = UpsertCookie (bareCookie name cookieValue) cookieOptions (ctx w) /\
     upserts (response (ctx w')) =
       upserts (response (ctx w)) ++ [bareCookie name cookieValue]) /\
    (expires <> -1 -> ctx w' = ctx w).
Proof.
  intros name cookieValue Hc Hneg Hu. eexists. split.
  - apply (UpdateExpiration_present s expires cookieOptions w (Some e) h1 p1 Hc Hu).
  - unfold rewritesCookie.
    replace (bool_decide (Some e = None)) with false
      by (symmetry; apply bool_decide_eq_false; discriminate).
    cbn [orb]. destruct (Z.eqb_spec expires (-1)) as [->|Hne].
    + repeat split; try (intros; contradiction).
      cbn. apply upserts_app_upserted.
    + repeat split; try (intros; contradiction).
Qed.

Lemma Destroy_present (s : Sessions) (w : World P) h1 p1 :
  GetCookie (ctx w) (Cookie (config s)) [] <> "" ->
  Provider.Destroy (GetCookie (ctx w) (Cookie (config s)) []) (heap w) (prov w) = (h1, p1) ->
  Destroy s w =
    Done tt (mkWorld h1 p1
               (RemoveCookie (Cookie (config s)) []
                  (ValuesRemove sessionContextKey (ctx w)))
               (clock w) (reads w)).
Proof.
  intros Hc Hd. unfold Destroy, getCookie. rewrite bind_run.
  destruct (String.eqb_spec (GetCookie (ctx w) (Cookie (config s)) []) "") as [E|_];
    [contradiction|].
  rewrite bind_run. cbn [withCtx]. rewrite bind_run. cbn [withCtx].
  unfold withProvider, unitProvider. cbn [heap prov ctx clock reads].
  rewrite Hd. reflexivity.
Qed.

Lemma Destroy_absent (s : Sessions) (w : World P) :
  GetCookie (ctx w) (Cookie (config s)) [] = "" ->
  Destroy s w = Done tt w.
Proof.
  intros Hc. unfold Destroy, getCookie. rewrite bind_run, Hc. reflexivity.
Qed.

Lemma Get_iff (c : Context) (p : loc) :
  Get c = Some p <-> values c !! sessionContextKey = Some (VSession p).
Proof.
  unfold Get, ValuesGet. destruct (values c !! sessionContextKey) as [[q|t]|].
  - split; intros [= ->]; reflexivity.
  - split; discriminate.
  - split; discriminate.
Qed.

Lemma Get_removed (c : Context) (name : string) (opts : list CookieOption) :
  Get (RemoveCookie name opts (ValuesRemove sessionContextKey c)) = None.
Proof.
  unfold Get, ValuesGet. cbn [RemoveCookie ValuesRemove values].
  now rewrite lookup_delete_eq.
Qed.

(** C5: [Destroy] reads the configured cookie.  When it is present, [Destroy]
    removes the session from the request-scoped state, hands the removal of
    the cookie to the request layer and calls [Provider.Destroy] with the
    cookie value; when it is absent, [Destroy] returns in the same world. *)
Theorem Destroy_spec (s : Sessions) (w : World P) :
  let name := Cookie (config s) in
  let cookieValue := GetCookie (ctx w) name [] in
  (cookieValue <> "" ->
   forall h1 p1,
     Provider.Destroy cookieValue (heap w) (prov w) = (h1, p1) ->
     exists w',
       Destroy s w = Done tt w' /\
       heap w' = h1 /\ prov w' = p1 /\
       values (ctx w') = delete sessionContextKey (values (ctx w)) /\
       Get (ctx w') = None /\
       response (ctx w') = response (ctx w) ++ [Removed name []] /\
       request (ctx w') = request (ctx w) /\
       options (ctx w') = options (ctx w))
  /\
  (cookieValue = "" -> Destroy s w = Done tt w).
Proof.
  intros name cookieValue. split.
  - intros Hc h1 p1 Hd. eexists. split.
    + apply (Destroy_present s w h1 p1 Hc Hd).
    + cbn [heap prov ctx]. repeat split. apply Get_removed.
  - apply Destroy_absent.
Qed.

(** C8: [DestroyByID] and [DestroyAll] act on the provider alone: each returns
    in a world whose heap and provider are those of [Provider.Destroy] (of
    [Provider.DestroyAll]), computed from the heap and the provider only, and
    whose request context and clock are unchanged, whatever the request
    context is. *)
Theorem administrative_destroy_frame (s : Sessions) (sid : string) (w : World P) :
  (forall c : Context,
     exists w',
       DestroyByID s sid (mkWorld (heap w) (prov w) c (clock w) (reads w)) = Done tt w' /\
       (heap w', prov w') = Provider.Destroy sid (heap w) (prov w) /\
       ctx w' = c /\ clock w' = clock w /\ reads w' = reads w)
  /\
  (forall c : Context,
     exists w',
       DestroyAll s (mkWorld (heap w) (prov w) c (clock w) (reads w)) = Done tt w' /\
       (heap w', prov w') = Provider.DestroyAll (heap w) (prov w) /\
       ctx w' = c /\ clock w' = clock w /\ reads w' = reads w).
Proof.
  split; intros c.
  - unfold DestroyByID, withProvider, unitProvider. cbn [heap prov ctx clock reads].
    destruct (Provider.Destroy sid (heap w) (prov w)) as [h1 p1].
    eexists. repeat split.
  - unfold DestroyAll, withProvider, unitProvider. cbn [heap prov ctx clock reads].
    destruct (Provider.DestroyAll (heap w) (prov w)) as [h1 p1].
    eexists. repeat split.
Qed.

(** [Start] touches the request context only by writing a cookie. *)
Lemma Start_ctx (s : Sessions) (opts : list CookieOption) (w w1 : World P) sess :
  Start s opts w = Done sess w1 ->
  ctx w1 = ctx w \/ exists cookie, ctx w1 = UpsertCookie cookie opts (ctx w).
Proof.
  intros HS.
  destruct (String.eqb_spec (GetCookie (ctx w) (Cookie (config s)) opts) "") as [E|N].
  - destruct (Provider.Init s (SessionIDGenerator (config s) (ctx w)) (Expires (config s))
                   (heap w) (prov w)) as [[l h1] p1] eqn:Hi.
    destruct (h1 !! l) as [o|] eqn:Ho.
    + rewrite (Start_absent s opts w l h1 p1 o E Hi Ho) in HS.
      injection HS as _ <-. right. eexists. reflexivity.
    + rewrite (Start_dangling s opts w l h1 p1 E Hi Ho) in HS. discriminate.
  - destruct (Provider.Read s (GetCookie (ctx w) (Cookie (config s)) opts) (Expires (config s))
                   (heap w) (prov w)) as [[l h1] p1] eqn:Hr.
    rewrite (Start_present s opts w l h1 p1 N Hr) in HS.
    injection HS as _ <-. left. reflexivity.
Qed.

(** C7: [Handler] records the per-call cookie options on the manager and
    returns a middleware that, for every request, adds to the request the
    cookie options derived from the manager-wide flags (reclaim, subdomain
    persistence, secure-only, value encoding, in this order), calls [Start]
    with the per-call options, attaches the resulting session to the
    request-scoped state under the key ["iris.session"] and hands over to the
    rest of the chain. *)
Theorem Handler_spec (s : Sessions) (cookieOptions : list CookieOption) (w : World P) :
  let s' := (Handler s cookieOptions).1 in
  let middleware := (Handler s cookieOptions).2 in
  let name := Cookie (config s) in
  let merged :=
    (if AllowReclaim (config s) then [CookieAllowReclaim name] else []) ++
    (if DisableSubdomainPersistence (config s) then [] else [CookieAllowSubdomains name]) ++
    (if CookieSecureTLS (config s) then [CookieSecure] else []) ++
    (match Encoding (config s) with
     | Some enc => [CookieEncoding enc name]
     | None => []
     end) in
  config s' = config s /\
  GetCookieOptions s' = cookieOptions /\
  forall session w1,
    Start s' cookieOptions
          (mkWorld (heap w) (prov w) (AddCookieOptions merged (ctx w)) (clock w) (reads w))
      = Done session w1 ->
    exists w',
      middleware w = Done tt w' /\
      heap w' = heap w1 /\ prov w' = prov w1 /\
      ctx w' = Next (ValuesSet "iris.session" (VSession session) (ctx w1)) /\
      options (ctx w') = options (ctx w) ++ merged /\
      values (ctx w') = <["iris.session" := VSession session]> (values (ctx w)) /\
      Get (ctx w') = Some session /\
      nexts (ctx w') = S (nexts (ctx w)).
Proof.
  intros s' middleware name merged.
  assert (requestOptions s' = merged) as Hm.
  { unfold requestOptions, merged, name. cbn [s' Handler fst config].
    destruct (AllowReclaim (config s)), (DisableSubdomainPersistence (config s)),
      (CookieSecureTLS (config s)), (Encoding (config s)); reflexivity. }
  split; [reflexivity|]. split; [reflexivity|].
  intros session w1 HS.
  assert (middleware w =
          Done tt (mkWorld (heap w1) (prov w1)
                     (Next (ValuesSet "iris.session" (VSession session) (ctx w1)))
                     (clock w1) (reads w1))) as Hrun.
  { unfold middleware, Handler. cbn [snd].
    change (mkSessions (config s) cookieOptions) with s'. rewrite Hm.
    rewrite bind_run. cbn [withCtx]. rewrite bind_run, HS.
    rewrite bind_run. reflexivity. }
  eexists. split; [exact Hrun|]. cbn [heap prov ctx].
  assert (options (ctx w1) = options (ctx w) ++ merged /\
          values (ctx w1) = values (ctx w) /\ nexts (ctx w1) = nexts (ctx w))
    as (Ho & Hv & Hn).
  { destruct (Start_ctx _ _ _ _ _ HS) as [E|[cookie E]]; rewrite E; repeat split. }
  cbn [Next ValuesSet options values nexts].
  rewrite Ho, Hv, Hn. repeat split.
  unfold Get, ValuesGet, sessionContextKey. cbn [Next ValuesSet values].
  now rewrite lookup_insert_eq.
Qed.

(** C6 (as amended): [Get] returns the session attached to the request-scoped
    state under ["iris.session"], and nil exactly when no session is attached
    there (nothing, or a value that is not a session); after a [Destroy] of
    the same request that found the session cookie in the request, [Get]
    returns nil. *)
Theorem Get_spec :
  (forall (c : Context) (sess : loc),
     Get (ValuesSet "iris.session" (VSession sess) c) = Some sess) /\
  (forall (c : Context) (sess : loc),
     Get c = Some sess <-> values c !! "iris.session" = Some (VSession sess)) /\
  (forall c : Context,
     Get c = None <->
     values c !! "iris.session" = None \/
     exists tag, values c !! "iris.session" = Some (VOther tag)) /\
  (forall (s : Sessions) (w w' : World P),
     GetCookie (ctx w) (Cookie (config s)) [] <> "" ->
     Destroy s w = Done tt w' ->
     Get (ctx w') = None).
Proof.
  split; [|split; [|split]].
  - intros c sess. unfold Get, ValuesGet, sessionContextKey. cbn [ValuesSet values].
    now rewrite lookup_insert_eq.
  - intros c sess. apply Get_iff.
  - intros c. unfold Get, ValuesGet, sessionContextKey.
    destruct (values c !! "iris.session") as [[q|t]|]; split;
      try discriminate; eauto.
    + intros [E|[tag E]]; discriminate.
  - intros s w w' Hc Hd.
    destruct (Provider.Destroy (GetCookie (ctx w) (Cookie (config s)) []) (heap w) (prov w))
      as [h1 p1] eqn:E.
    rewrite (Destroy_present s w h1 p1 Hc E) in Hd.
    injection Hd as <-. apply Get_removed.
Qed.

End ManagerFacts.

(** ** The provider of the specification *)

Lemma unseen_no_data (dbs : list provider.Database) (id : string) :
  (forall db, db ∈ dbs -> provider.entries db !! id = None) ->
  existsb (fun db => provider.hasData db id) dbs = false /\
  provider.lookupData dbs id = ∅.
Proof.
  induction dbs as [|db dbs IH]; intros H; [split; reflexivity|].
  assert (provider.hasData db id = false) as Hd.
  { unfold provider.hasData, provider.entriesOf.
    rewrite (H db) by apply list_elem_of_here. reflexivity. }
  destruct IH as [IH1 IH2].
  { intros db' Hin. apply H. now apply list_elem_of_further. }
  cbn [existsb provider.lookupData]. rewrite Hd, IH1, IH2. split; reflexivity.
Qed.

Lemma unseen_not_known (p : provider.provider) (id : string) :
  provider.unseen p id -> provider.known p id = false.
Proof.
  intros [Hs Hd]. unfold provider.known. rewrite Hs.
  destruct (unseen_no_data _ _ Hd) as [-> _]. reflexivity.
Qed.

Lemma unseen_Len (p : provider.provider) (id : string) :
  provider.unseen p id -> provider.Len p id = 0.
Proof.
  intros [_ Hd]. unfold provider.Len.
  destruct (unseen_no_data _ _ Hd) as [_ ->]. reflexivity.
Qed.

Lemma Init_allocates (man : Sessions) (id : string) (expires : time.Duration)
    (h : Heap) (p : provider.provider) :
  exists l sess,
    provider.Init man id expires h p = (l, <[l := sess]> h, provider.register id l p) /\
    h !! l = None /\
    sid sess = id /\ store sess = ∅ /\
    isNew sess = (provider.Len p id =? 0).
Proof.
  eexists _, _. split; [reflexivity|]. repeat split.
  apply (not_elem_of_dom (D := gset positive)), is_fresh.
Qed.

Lemma UpdateExpiration_unseen (id : string) (expires : time.Duration)
    (h : Heap) (p : provider.provider) :
  provider.unseen p id ->
  provider.UpdateExpiration id expires h p = (Some ErrNotFound, h, p).
Proof.
  intros Hu. unfold provider.UpdateExpiration.
  now rewrite (unseen_not_known _ _ Hu).
Qed.

(** On the provider of the specification a session pointer is never
    dangling: [Start] always returns a session. *)
Lemma Start_returns `{RL : RequestLayer} (s : Sessions)
    (cookieOptions : list CookieOption) (w : World provider.provider) :
  exists sess w', Start (PO := provider.ops) s cookieOptions w = Done sess w'.
Proof.
  destruct (String.eqb_spec (GetCookie (ctx w) (Cookie (config s)) cookieOptions) "")
    as [E|N].
  - destruct (Init_allocates s (SessionIDGenerator (config s) (ctx w))
                (Expires (config s)) (heap w) (prov w)) as (l & sess & Hi & _).
    eexists _, _.
    apply (Start_absent (PO := provider.ops) s cookieOptions w l _ _ sess E Hi).
    apply lookup_insert_eq.
  - destruct (Provider.Read (Ops := provider.ops) s
                (GetCookie (ctx w) (Cookie (config s)) cookieOptions)
                (Expires (config s)) (heap w) (prov w)) as [[l h1] p1] eqn:Hr.
    eexists _, _.
    apply (Start_present (PO := provider.ops) s cookieOptions w l h1 p1 N Hr).
Qed.

(** C3: [UpdateExpiration] returns [ErrNotFound], and changes nothing, when no
    cookie is present; otherwise it calls the provider's update with the
    cookie value and returns exactly the provider's error, and it rewrites
    the cookie exactly when the provider update succeeded or the requested
    expiration is the signal [-1]: in that case one cookie carrying the
    cookie value and the requested expiration is written, in every other case
    the request context is left as it was.  Over the provider of the
    specification, an id unknown to both the registry and the databases makes
    the provider's error, and so the returned one, [ErrNotFound]. *)
Theorem UpdateExpiration_spec {P : Type} `{RL : RequestLayer} `{PO : Provider.Ops P}
    (s : Sessions) (expires : time.Duration)
    (cookieOptions : list CookieOption) (w : World P) :
  let name := Cookie (config s) in
  let cookieValue := GetCookie (ctx w) name [] in
  (cookieValue = "" ->
   UpdateExpiration s expires cookieOptions w = Done (Some ErrNotFound) w)
  /\
  (cookieValue <> "" ->
   forall err h1 p1,
     Provider.UpdateExpiration cookieValue expires (heap w) (prov w) = (err, h1, p1) ->
     exists w',
       UpdateExpiration s expires cookieOptions w = Done err w' /\
       heap w' = h1 /\ prov w' = p1 /\
       (err = None \/ expires = -1 ->
        ctx w' = UpsertCookie (sessionCookie name cookieValue expires
                                 (clock w (reads w)) (clock w (S (reads w))))
                              cookieOptions (ctx w)) /\
       (~ (err = None \/ expires = -1) -> ctx w' = ctx w))
  /\
  (forall w0 : World provider.provider,
     let id := GetCookie (ctx w0) name [] in
     id <> "" ->
     provider.unseen (prov w0) id ->
     exists w',
       UpdateExpiration (PO := provider.ops) s expires cookieOptions w0
         = Done (Some ErrNotFound) w' /\
       heap w' = heap w0 /\ prov w' = prov w0).
Proof.
  intros name cookieValue. split; [|split].
  - apply UpdateExpiration_absent.
  - intros Hc err h1 p1 Hu. eexists. split.
    + apply (UpdateExpiration_present s expires cookieOptions w err h1 p1 Hc Hu).
    + pose proof (rewritesCookie_iff err expires) as Hiff.
      destruct (rewritesCookie err expires); repeat split.
      * intros Hn. exfalso. apply Hn, Hiff. reflexivity.
      * intros Hy. apply Hiff in Hy. discriminate.
  - intros w0 id Hc Hu. eexists. split.
    + apply (UpdateExpiration_present (PO := provider.ops) s expires cookieOptions w0
               (Some ErrNotFound) (heap w0) (prov w0) Hc).
      apply UpdateExpiration_unseen, Hu.
    + destruct (rewritesCookie (Some ErrNotFound) expires); split; reflexivity.
Qed.

(** C4: over the provider of the specification, for an id never seen before
    (no record in the registry, no entry in any registered database), whether
    the id was just generated for a request without cookie or presented by
    the request's cookie, [Start] returns a session registered under the id
    whose [isNew] flag is true, being (no prior entries found for the id
    across the registered databases), and whose store has length 0. *)
Theorem Start_unseen_id_is_new `{RL : RequestLayer} (s : Sessions)
    (cookieOptions : list CookieOption) (w : World provider.provider) (id : string) :
  let cookieValue := GetCookie (ctx w) (Cookie (config s)) cookieOptions in
  provider.unseen (prov w) id ->
  (cookieValue = "" /\ SessionIDGenerator (config s) (ctx w) = id) \/
  (cookieValue = id /\ id <> "") ->
  exists sess w' o,
    Start (PO := provider.ops) s cookieOptions w = Done sess w' /\
    heap w !! sess = None /\
    heap w' !! sess = Some o /\
    provider.sessions (prov w') !! id = Some sess /\
    sid o = id /\
    isNew o = (provider.Len (prov w) id =? 0) /\
    isNew o = true /\
    size (store o) = 0%nat.
Proof.
  intros cookieValue Hu Hcase.
  destruct (Init_allocates s id (Expires (config s)) (heap w) (prov w))
    as (l & sess & Hi & Hfresh & Hsid & Hstore & Hnew).
  pose proof (unseen_Len _ _ Hu) as HL.
  destruct Hcase as [[Hc Hg]|[Hc Hne]].
  - exists l. eexists. exists (setIsNew (provider.Len (prov w) id =? 0) sess). split.
    + rewrite (Start_absent (PO := provider.ops) s cookieOptions w l
                 (<[l := sess]> (heap w)) (provider.register id l (prov w)) sess Hc).
      * rewrite Hg. reflexivity.
      * rewrite Hg. exact Hi.
      * apply lookup_insert_eq.
    + cbn [cookieWritten heap prov provider.register provider.sessions setIsNew
           sid isNew store].
      change (Provider.dbLen id (provider.register id l (prov w)))
        with (provider.Len (prov w) id).
      rewrite !lookup_insert_eq, Hstore, HL. repeat split; assumption.
  - exists l. eexists. exists sess. split.
    + apply (Start_present (PO := provider.ops) s cookieOptions w l
               (<[l := sess]> (heap w)) (provider.register id l (prov w))).
      * fold cookieValue. now rewrite Hc.
      * fold cookieValue. rewrite Hc. cbn [Provider.Read provider.ops]. unfold provider.Read.
        destruct Hu as [-> _]. exact Hi.
    + cbn [heap prov provider.register provider.sessions].
      rewrite !lookup_insert_eq, Hnew, Hstore, HL. repeat split; assumption.
Qed.

(** ** The manager at work on the sample requests *)

(** C1, on a first visit and on a returning one. *)
Lemma Start_creates_or_reads_witness :
  (exists cookie w',
     Start (RL := plainLayer) (PO := provider.ops) (sampleManager 0) [] firstVisit
       = Done 1%positive w' /\
     ctx w' = UpsertCookie cookie [] emptyContext /\
     http.Name cookie = "sid" /\ http.Value cookie = "abc123") /\
  (exists w',
     Start (RL := plainLayer) (PO := provider.ops) (sampleManager 0) [] returningVisit
       = Done 1%positive w' /\
     ctx w' = contextWith "abc123").
Proof.
  split.
  - destruct (Start_creates_or_reads (RL := plainLayer) (PO := provider.ops)
                (sampleManager 0) [] firstVisit) as [Hnew _].
    edestruct (Hnew eq_refl) as (w' & HS & _ & _ & Hctx & _ & Hn & Hv);
      [reflexivity|reflexivity|].
    eexists _, w'. repeat split; eassumption.
  - destruct (Start_creates_or_reads (RL := plainLayer) (PO := provider.ops)
                (sampleManager 0) [] returningVisit) as [_ Hold].
    edestruct Hold as (w' & HS & _ & _ & Hctx); [discriminate|reflexivity|].
    exists w'. split; assumption.
Defined.

(** C2 as stated fails.  A first visit served by a manager whose expiration
    is [-1] receives a cookie with [Expires] and [MaxAge] at their zero
    values: it is not expired on arrival but kept until the browser closes.
    A first visit served by a manager whose expiration is [0] receives a
    cookie with [Expires] set to [CookieExpireUnlimited] and a positive
    [MaxAge]: it carries both expiration attributes. *)
Lemma negative_duration_keeps_cookie :
  (exists w',
     Start (RL := plainLayer) (PO := provider.ops) (sampleManager (-1)) [] firstVisit
       = Done 1%positive w' /\
     upserts (response (ctx w')) = [cookieOnNegative]) /\
  (forall t, ~ expiredOnArrival t cookieOnNegative) /\
  sessionScoped cookieOnNegative /\
  (exists w',
     Start (RL := plainLayer) (PO := provider.ops) (sampleManager 0) [] firstVisit
       = Done 1%positive w' /\
     upserts (response (ctx w')) = [cookieOnZero]) /\
  ~ sessionScoped cookieOnZero.
Proof.
  split; [eexists; split; reflexivity|]. split; [|split; [|split]].
  - intros t [H|(_ & H & _)]; [now apply Z.lt_irrefl in H|discriminate].
  - split; reflexivity.
  - eexists; split; reflexivity.
  - intros [H _]. discriminate.
Qed.

(** C2 as amended, on a manager whose expiration is one hour: the clock is
    read twice, one millisecond apart, so 3599 whole seconds are left. *)
Lemma cookie_expiration_policy_witness :
  exists cookie,
    updateCookie (RL := plainLayer) (sampleManager hour) "abc123" hour [] firstVisit
      = Done tt (mkWorld ∅ (provider.newProvider t0)
                   (UpsertCookie cookie [] emptyContext) sampleClock 2) /\
    http.Expires cookie = t0 + hour /\
    http.MaxAge cookie = 3599.
Proof.
  destruct (cookie_expiration_policy (RL := plainLayer) (PO := provider.ops)
              (sampleManager hour) "abc123" hour [] firstVisit)
    as (cookie & Hrun & _ & _ & _ & _ & _ & _ & _ & _ & Hpositive).
  destruct Hpositive as [He Hm]; [reflexivity|].
  exists cookie. split; [exact Hrun|]. rewrite He, Hm. split; reflexivity.
Defined.

(** C3, on a request without cookie, on a returning visit whose expiration is
    moved to one hour, and on a cookie whose id nobody knows. *)
Lemma UpdateExpiration_spec_witness :
  UpdateExpiration (RL := plainLayer) (PO := provider.ops) (sampleManager 0) hour []
                   firstVisit = Done (Some ErrNotFound) firstVisit /\
  (exists w',
     UpdateExpiration (RL := plainLayer) (PO := provider.ops) (sampleManager 0) hour []
                      returningVisit = Done None w' /\
     upserts (response (ctx w')) =
       [sessionCookie (RL := plainLayer) "sid" "abc123" hour t0 (t0 + 1000000)]) /\
  (exists w',
     UpdateExpiration (RL := plainLayer) (PO := provider.ops) (sampleManager 0) hour []
                      staleVisit = Done (Some ErrNotFound) w' /\
     prov w' = prov staleVisit).
Proof.
  split; [|split].
  - destruct (UpdateExpiration_spec (RL := plainLayer) (PO := provider.ops)
                (sampleManager 0) hour [] firstVisit) as (Habsent & _ & _).
    apply Habsent. reflexivity.
  - destruct (UpdateExpiration_spec (RL := plainLayer) (PO := provider.ops)
                (sampleManager 0) hour [] returningVisit) as (_ & Hpresent & _).
    edestruct Hpresent as (w' & HU & _ & _ & Hyes & _); [discriminate|reflexivity|].
    exists w'. split; [exact HU|]. rewrite Hyes by (left; reflexivity). reflexivity.
  - destruct (UpdateExpiration_spec (RL := plainLayer) (PO := provider.ops)
                (sampleManager 0) hour [] staleVisit) as (_ & _ & Hunseen).
    destruct (Hunseen staleVisit) as (w' & HU & _ & Hp);
      [discriminate|split; [reflexivity|intros db Hdb; inversion Hdb]|].
    exists w'. split; assumption.
Defined.

(** C4, on a first visit (the id is generated) and on a request whose cookie
    carries an id that was never seen (the id is read). *)
Lemma Start_unseen_id_is_new_witness :
  (exists sess w' o,
     Start (RL := plainLayer) (PO := provider.ops) (sampleManager 0) [] firstVisit
       = Done sess w' /\
     heap w' !! sess = Some o /\ sid o = "abc123" /\ isNew o = true /\
     size (store o) = 0%nat) /\
  (exists sess w' o,
     Start (RL := plainLayer) (PO := provider.ops) (sampleManager 0) [] staleVisit
       = Done sess w' /\
     heap w' !! sess = Some o /\ sid o = "gone" /\ isNew o = true /\
     size (store o) = 0%nat).
Proof.
  split.
  - destruct (Start_unseen_id_is_new (RL := plainLayer) (sampleManager 0) []
                firstVisit "abc123")
      as (sess & w' & o & HS & _ & Ho & _ & Hid & _ & Hnew & Hlen).
    + split; [reflexivity|intros db Hdb; inversion Hdb].
    + left. split; reflexivity.
    + exists sess, w', o. repeat split; assumption.
  - destruct (Start_unseen_id_is_new (RL := plainLayer) (sampleManager 0) []
                staleVisit "gone")
      as (sess & w' & o & HS & _ & Ho & _ & Hid & _ & Hnew & Hlen).
    + split; [reflexivity|intros db Hdb; inversion Hdb].
    + right. split; [reflexivity|discriminate].
    + exists sess, w', o. repeat split; assumption.
Defined.

(** C5, on a request that carries the cookie of an attached session and on a
    request without cookie. *)
Lemma Destroy_spec_witness :
  (exists w',
     Destroy (RL := plainLayer) (PO := provider.ops) (sampleManager 0) attachedVisit
       = Done tt w' /\
     Get (ctx w') = None /\
     response (ctx w') = [Removed "sid" []] /\
     provider.sessions (prov w') !! "abc123" = None) /\
  Destroy (RL := plainLayer) (PO := provider.ops) (sampleManager 0) firstVisit
    = Done tt firstVisit.
Proof.
  destruct (Destroy_spec (RL := plainLayer) (PO := provider.ops)
              (sampleManager 0) attachedVisit) as [Hpresent _].
  destruct (Destroy_spec (RL := plainLayer) (PO := provider.ops)
              (sampleManager 0) firstVisit) as [_ Habsent].
  split; [|apply Habsent; reflexivity].
  edestruct Hpresent as (w' & HD & _ & Hp & _ & HG & Hr & _);
    [discriminate|reflexivity|].
  exists w'. repeat split; try assumption. rewrite Hp. reflexivity.
Defined.

(** C6 as stated fails: on a first visit the request carries no cookie, so a
    [Destroy] that runs after the middleware finds nothing to destroy and
    [Get] still returns the attached session. *)
Lemma Get_after_Destroy_on_first_visit :
  exists w1 w2,
    (Handler (RL := plainLayer) (PO := provider.ops) (sampleManager 0) []).2 firstVisit
      = Done tt w1 /\
    Get (ctx w1) = Some 1%positive /\
    Destroy (RL := plainLayer) (PO := provider.ops)
            (Handler (RL := plainLayer) (PO := provider.ops) (sampleManager 0) []).1 w1
      = Done tt w2 /\
    Get (ctx w2) = Some 1%positive.
Proof.
  eexists _, _. split; [reflexivity|]. split; [reflexivity|].
  split; reflexivity.
Qed.

(** C6, on a request that carries the cookie of an attached session. *)
Lemma Get_spec_witness :
  Get (ctx attachedVisit) = Some 1%positive /\
  exists w',
    Destroy (RL := plainLayer) (PO := provider.ops) (sampleManager 0) attachedVisit
      = Done tt w' /\
    Get (ctx w') = None.
Proof.
  destruct (Get_spec (RL := plainLayer) (PO := provider.ops))
    as (Hset & _ & _ & Hdestroyed).
  split; [apply Hset|].
  eexists. split; [reflexivity|].
  eapply (Hdestroyed (sampleManager 0) attachedVisit); [discriminate|reflexivity].
Defined.

(** C7, on a first visit with a manager that asks for secure cookies. *)
Lemma Handler_spec_witness :
  exists w',
    (Handler (RL := plainLayer) (PO := provider.ops) (sampleManager 0) [CookieSecure]).2
      firstVisit = Done tt w' /\
    options (ctx w') = [CookieAllowSubdomains "sid"] /\
    Get (ctx w') = Some 1%positive /\
    nexts (ctx w') = 1%nat.
Proof.
  destruct (Handler_spec (RL := plainLayer) (PO := provider.ops)
              (sampleManager 0) [CookieSecure] firstVisit) as (_ & _ & Hrun).
  edestruct Hrun as (w' & HM & _ & _ & _ & Ho & _ & HG & Hn); [reflexivity|].
  exists w'. repeat split; assumption.
Defined.

(** C10, on a cookie whose id nobody knows: the update fails with
    [ErrNotFound]; at [-1] the cookie is rewritten, at [-2] it is not. *)
Lemma UpdateExpiration_failed_update_witness :
  (exists w',
     UpdateExpiration (RL := plainLayer) (PO := provider.ops) (sampleManager 0) (-1) []
                      staleVisit = Done (Some ErrNotFound) w' /\
     upserts (response (ctx w')) = [bareCookie "sid" "gone"]) /\
  (exists w',
     UpdateExpiration (RL := plainLayer) (PO := provider.ops) (sampleManager 0) (-2) []
                      staleVisit = Done (Some ErrNotFound) w' /\
     ctx w' = ctx staleVisit).
Proof.
  split.
  - edestruct (UpdateExpiration_failed_update (RL := plainLayer) (PO := provider.ops)
                 (sampleManager 0) (-1) [] staleVisit)
      as (w' & HU & _ & _ & Hyes & _); [discriminate|reflexivity|reflexivity|].
    exists w'. split; [exact HU|]. now apply Hyes.
  - edestruct (UpdateExpiration_failed_update (RL := plainLayer) (PO := provider.ops)
                 (sampleManager 0) (-2) [] staleVisit)
      as (w' & HU & _ & _ & _ & Hno); [discriminate|reflexivity|reflexivity|].
    exists w'. split; [exact HU|]. now apply Hno.
Defined.

(** ** Further facts read off the manager's code *)

Section MoreManagerFacts.

Context {P : Type} `{RL : RequestLayer} `{PO : Provider.Ops P}.

(** What [Start] does to the request context, by the branch it takes. *)
Lemma Start_ctx_cases (s : Sessions) (opts : list CookieOption) (w w1 : World P) sess :
  Start s opts w = Done sess w1 ->
  (GetCookie (ctx w) (Cookie (config s)) opts <> "" -> ctx w1 = ctx w) /\
  (GetCookie (ctx w) (Cookie (config s)) opts = "" ->
   ctx w1 = UpsertCookie
              (sessionCookie (Cookie (config s)) (SessionIDGenerator (config s) (ctx w))
                 (Expires (config s)) (clock w (reads w)) (clock w (S (reads w))))
              opts (ctx w)).
Proof.
  intros HS.
  destruct (String.eqb_spec (GetCookie (ctx w) (Cookie (config s)) opts) "") as [E|N].
  - split; [intros N; contradiction|intros _].
    destruct (Provider.Init s (SessionIDGenerator (config s) (ctx w)) (Expires (config s))
                (heap w) (prov w)) as [[l h1] p1] eqn:Hi.
    destruct (h1 !! l) as [o|] eqn:Ho.
    + rewrite (Start_absent s opts w l h1 p1 o E Hi Ho) in HS.
      injection HS as _ <-. reflexivity.
    + rewrite (Start_dangling s opts w l h1 p1 E Hi Ho) in HS. discriminate.
  - split; [intros _|intros E; contradiction].
    destruct (Provider.Read s (GetCookie (ctx w) (Cookie (config s)) opts)
                (Expires (config s)) (heap w) (prov w)) as [[l h1] p1] eqn:Hr.
    rewrite (Start_present s opts w l h1 p1 N Hr) in HS.
    injection HS as _ <-. reflexivity.
Qed.

(** X1: [Start] does not attach the session to the request: when it returns,
    the request-scoped values, the request's cookie options and the position
    in the handler chain are as before, so [Get] answers what it answered
    before the call. *)
Theorem Start_keeps_request_state (s : Sessions) (cookieOptions : list CookieOption)
    (w w' : World P) (sess : loc) :
  Start s cookieOptions w = Done sess w' ->
  values (ctx w') = values (ctx w) /\
  options (ctx w') = options (ctx w) /\
  nexts (ctx w') = nexts (ctx w) /\
  Get (ctx w') = Get (ctx w).
Proof.
  intros HS.
  destruct (Start_ctx _ _ _ _ _ HS) as [E|[cookie E]]; rewrite E; repeat split.
Qed.

(** X2: [Start] panics exactly when the cookie is absent and the pointer
    [Provider.Init] returned addresses no session (the write to [isNew] goes
    through it); with a cookie present it never panics. *)
Theorem Start_panics_iff (s : Sessions) (cookieOptions : list CookieOption)
    (w : World P) :
  let r := Provider.Init s (SessionIDGenerator (config s) (ctx w)) (Expires (config s))
             (heap w) (prov w) in
  Start s cookieOptions w = Panic <->
  GetCookie (ctx w) (Cookie (config s)) cookieOptions = "" /\ r.1.2 !! r.1.1 = None.
Proof.
  intros r. subst r.
  destruct (Provider.Init s (SessionIDGenerator (config s) (ctx w)) (Expires (config s))
              (heap w) (prov w)) as [[l h1] p1] eqn:Hi.
  cbn [fst snd]. split.
  - intros HP.
    destruct (String.eqb_spec (GetCookie (ctx w) (Cookie (config s)) cookieOptions) "")
      as [E|N].
    + split; [exact E|].
      destruct (h1 !! l) as [o|] eqn:Ho; [|reflexivity].
      rewrite (Start_absent s cookieOptions w l h1 p1 o E Hi Ho) in HP. discriminate.
    + destruct (Provider.Read s (GetCookie (ctx w) (Cookie (config s)) cookieOptions)
                  (Expires (config s)) (heap w) (prov w)) as [[l' h'] p'] eqn:Hr.
      rewrite (Start_present s cookieOptions w l' h' p' N Hr) in HP. discriminate.
  - intros [E Ho]. apply (Start_dangling s cookieOptions w l h1 p1 E Hi Ho).
Qed.

(** The middleware runs [Start] on the request once the manager-wide options
    were added, and attaches what [Start] returns. *)
Lemma middleware_run (s : Sessions) (cookieOptions : list CookieOption) (w : World P) :
  (Handler s cookieOptions).2 w =
  match Start (Handler s cookieOptions).1 cookieOptions
              (mkWorld (heap w) (prov w)
                 (AddCookieOptions (requestOptions (Handler s cookieOptions).1) (ctx w))
                 (clock w) (reads w)) with
  | Done session w1 =>
      Done tt (mkWorld (heap w1) (prov w1)
                 (Next (ValuesSet sessionContextKey (VSession session) (ctx w1)))
                 (clock w1) (reads w1))
  | Panic => Panic
  end.
Proof.
  unfold Handler. cbn [fst snd]. rewrite bind_run. cbn [withCtx].
  rewrite bind_run.
  destruct (Start _ cookieOptions _) as [session w1|]; reflexivity.
Qed.

(** X3: the middleware writes a cookie only on a request without cookie.  The
    lookup and the id generator see the request with the manager-wide options
    already added; when the lookup finds the cookie the response is left as
    it was, and when it finds none exactly one cookie is handed over, with
    the per-call options, carrying the generated id. *)
Theorem middleware_writes_cookie_on_first_visit (s : Sessions)
    (cookieOptions : list CookieOption) (w w' : World P) :
  let c0 := AddCookieOptions (requestOptions (Handler s cookieOptions).1) (ctx w) in
  let cookieValue := GetCookie c0 (Cookie (config s)) cookieOptions in
  (Handler s cookieOptions).2 w = Done tt w' ->
  (cookieValue <> "" -> response (ctx w') = response (ctx w)) /\
  (cookieValue = "" ->
   exists cookie,
     response (ctx w') = response (ctx w) ++ [Upserted cookie cookieOptions] /\
     http.Name cookie = Cookie (config s) /\
     http.Value cookie = SessionIDGenerator (config s) c0).
Proof.
  intros c0 cookieValue Hrun. rewrite middleware_run in Hrun.
  destruct (Start _ cookieOptions _) as [session w1|] eqn:HS; [|discriminate].
  injection Hrun as <-.
  destruct (Start_ctx_cases _ _ _ _ _ HS) as [Hpresent Habsent].
  cbn [ctx Handler fst config] in Hpresent, Habsent.
  cbn [ctx Next ValuesSet response]. split.
  - intros N. rewrite (Hpresent N). reflexivity.
  - intros E. rewrite (Habsent E). eexists. split; [reflexivity|].
    cbn [clock reads].
    destruct (sessionCookie_name_value (Cookie (config s))
                (SessionIDGenerator (config s) c0) (Expires (config s))
                (clock w (reads w)) (clock w (S (reads w)))) as (Hn & Hv & _).
    split; assumption.
Qed.

(** X4: after a [Destroy] that found the cookie, a [Start] in the same request
    does not bring the session back to the request-scoped state: [Get] still
    returns nil. *)
Theorem Get_nil_after_Destroy_then_Start (s : Sessions)
    (cookieOptions : list CookieOption) (w w1 w2 : World P) (sess : loc) :
  GetCookie (ctx w) (Cookie (config s)) [] <> "" ->
  Destroy s w = Done tt w1 ->
  Start s cookieOptions w1 = Done sess w2 ->
  Get (ctx w2) = None.
Proof.
  intros Hc HD HS.
  destruct (Provider.Destroy (GetCookie (ctx w) (Cookie (config s)) []) (heap w) (prov w))
    as [h1 p1] eqn:E.
  rewrite (Destroy_present s w h1 p1 Hc E) in HD. injection HD as <-.
  destruct (Start_ctx _ _ _ _ _ HS) as [E'|[cookie E']]; rewrite E';
    apply Get_removed.
Qed.

(** X5: with the cookie present, [Destroy] is the request-side clean-up (the
    session value removed, the cookie removal handed over) followed by
    [DestroyByID] on the cookie's value; [DestroyByID] alone leaves the
    cookie and the attached session in place. *)
Theorem Destroy_is_cleanup_then_DestroyByID (s : Sessions) (w : World P) :
  let name := Cookie (config s) in
  let cookieValue := GetCookie (ctx w) name [] in
  cookieValue <> "" ->
  Destroy s w =
    DestroyByID s cookieValue
      (mkWorld (heap w) (prov w)
         (RemoveCookie name [] (ValuesRemove sessionContextKey (ctx w)))
         (clock w) (reads w)) /\
  exists w2,
    DestroyByID s cookieValue w = Done tt w2 /\
    ctx w2 = ctx w /\ Get (ctx w2) = Get (ctx w).
Proof.
  intros name cookieValue Hc.
  destruct (Provider.Destroy cookieValue (heap w) (prov w)) as [h1 p1] eqn:E.
  split.
  - rewrite (Destroy_present s w h1 p1 Hc E).
    unfold DestroyByID, withProvider, unitProvider. cbn [heap prov ctx clock reads].
    fold name cookieValue. rewrite E. reflexivity.
  - unfold DestroyByID, withProvider, unitProvider. rewrite E.
    eexists. repeat split.
Qed.

(** X6: [Destroy] always returns; it removes no other request-scoped value
    than the session, and it never hands a session cookie to the response. *)
Theorem Destroy_keeps_other_values (s : Sessions) (w : World P) :
  exists w',
    Destroy s w = Done tt w' /\
    (forall key, key <> "iris.session" ->
       values (ctx w') !! key = values (ctx w) !! key) /\
    upserts (response (ctx w')) = upserts (response (ctx w)) /\
    options (ctx w') = options (ctx w).
Proof.
  destruct (String.eqb_spec (GetCookie (ctx w) (Cookie (config s)) []) "") as [E|N].
  - exists w. split; [apply Destroy_absent, E|]. repeat split.
  - destruct (Provider.Destroy (GetCookie (ctx w) (Cookie (config s)) []) (heap w) (prov w))
      as [h1 p1] eqn:HD.
    eexists. split; [apply (Destroy_present s w h1 p1 N HD)|].
    cbn [ctx RemoveCookie ValuesRemove values response options]. repeat split.
    + intros key Hk. apply lookup_delete_ne. unfold sessionContextKey. congruence.
    + apply upserts_app_removed.
Qed.

(** X7: [UpdateExpiration] always returns and leaves the request-scoped state
    alone ([Get] answers as before); the response receives at most one cookie
    write, a cookie of the configured name carrying the value the request's
    cookie has. *)
Theorem UpdateExpiration_keeps_request_state (s : Sessions) (expires : time.Duration)
    (cookieOptions : list CookieOption) (w : World P) :
  let name := Cookie (config s) in
  exists err w',
    UpdateExpiration s expires cookieOptions w = Done err w' /\
    values (ctx w') = values (ctx w) /\
    options (ctx w') = options (ctx w) /\
    Get (ctx w') = Get (ctx w) /\
    (response (ctx w') = response (ctx w) \/
     exists cookie,
       response (ctx w') = response (ctx w) ++ [Upserted cookie cookieOptions] /\
       http.Name cookie = name /\
       http.Value cookie = GetCookie (ctx w) name [] /\
       GetCookie (ctx w) name [] <> "").
Proof.
  intros name.
  destruct (String.eqb_spec (GetCookie (ctx w) (Cookie (config s)) []) "") as [E|N].
  - exists (Some ErrNotFound), w. split; [apply UpdateExpiration_absent, E|].
    repeat split. left. reflexivity.
  - destruct (Provider.UpdateExpiration (GetCookie (ctx w) (Cookie (config s)) []) expires
                (heap w) (prov w)) as [[err h1] p1] eqn:Hu.
    eexists _, _. split;
      [apply (UpdateExpiration_present s expires cookieOptions w err h1 p1 N Hu)|].
    destruct (rewritesCookie err expires);
      cbn [cookieWritten ctx UpsertCookie values options response]; repeat split.
    + right. eexists. split; [reflexivity|].
      destruct (sessionCookie_name_value (Cookie (config s))
                  (GetCookie (ctx w) (Cookie (config s)) []) expires
                  (clock w (reads w)) (clock w (S (reads w)))) as (Hn & Hv & _).
      repeat split; assumption.
    + left. reflexivity.
Qed.

(** X8: with [CookieExpireUnlimited] and the clock at instants [net/http]
    accepts for [Expires] (year 1601 or later), the cookie [updateCookie]
    writes is browser-session-scoped exactly when the duration is negative:
    for a zero or positive duration it carries the [Expires] attribute. *)
Theorem cookie_session_scoped_iff_negative (s : Sessions) (sid : string)
    (expires : time.Duration) (opts : list CookieOption) (w : World P) :
  validCookieExpires CookieExpireUnlimited = true ->
  validCookieExpires (clock w (reads w)) = true ->
  exists cookie w',
    updateCookie s sid expires opts w = Done tt w' /\
    response (ctx w') = response (ctx w) ++ [Upserted cookie opts] /\
    (sessionScoped cookie <-> expires < 0).
Proof.
  intros HU Ht. eexists _, _. split; [apply updateCookie_run|].
  split; [reflexivity|].
  set (t1 := clock w (reads w)) in *. set (t2 := clock w (S (reads w))).
  destruct (sessionCookie_expiration (Cookie (config s)) sid expires t1 t2)
    as (Hneg & Hzero & Hpos).
  split.
  - intros [_ Hinvalid].
    destruct (Z.lt_trichotomy expires 0) as [Hlt|[Heq|Hgt]]; [exact Hlt| |].
    + destruct (Hzero Heq) as [HE _]. rewrite HE, HU in Hinvalid. discriminate.
    + destruct (Hpos Hgt) as [HE _]. rewrite HE in Hinvalid.
      unfold validCookieExpires, time.Add in *. lia.
  - intros Hlt. apply Hneg, Hlt.
Qed.

(** X9: [StartWithPath] looks the cookie up and, on a request without cookie,
    hands the new cookie over with the one option [CookiePath path]; the
    [Path] field of the cookie itself stays ["/"].  With a cookie present it
    reads the session and leaves the request context as it was. *)
Theorem StartWithPath_passes_path_option (s : Sessions) (path : string)
    (w w' : World P) (sess : loc) :
  let cookieValue := GetCookie (ctx w) (Cookie (config s)) [CookiePath path] in
  StartWithPath s path w = Done sess w' ->
  (cookieValue = "" ->
   exists cookie,
     response (ctx w') = response (ctx w) ++ [Upserted cookie [CookiePath path]] /\
     http.Path cookie = "/" /\
     http.Value cookie = SessionIDGenerator (config s) (ctx w)) /\
  (cookieValue <> "" -> ctx w' = ctx w).
Proof.
  intros cookieValue HS. unfold StartWithPath in HS.
  destruct (Start_ctx_cases _ _ _ _ _ HS) as [Hpresent Habsent].
  split; [|exact Hpresent].
  intros E. rewrite (Habsent E). eexists. split; [reflexivity|].
  destruct (sessionCookie_name_value (Cookie (config s))
              (SessionIDGenerator (config s) (ctx w)) (Expires (config s))
              (clock w (reads w)) (clock w (S (reads w)))) as (_ & Hv & Hp & _).
  split; assumption.
Qed.

(** X11: the per-call cookie options play no part in which session
    [UpdateExpiration] updates: the cookie is looked up without them, so two
    calls that differ only in these options return the same error, leave the
    same heap and provider, and write the same cookies; only the options that
    accompany a written cookie differ. *)
Theorem UpdateExpiration_lookup_ignores_options (s : Sessions)
    (expires : time.Duration) (opts1 opts2 : list CookieOption) (w : World P) :
  exists err w1 w2,
    UpdateExpiration s expires opts1 w = Done err w1 /\
    UpdateExpiration s expires opts2 w = Done err w2 /\
    heap w1 = heap w2 /\ prov w1 = prov w2 /\
    upserts (response (ctx w1)) = upserts (response (ctx w2)) /\
    values (ctx w1) = values (ctx w2).
Proof.
  destruct (String.eqb_spec (GetCookie (ctx w) (Cookie (config s)) []) "") as [E|N].
  - exists (Some ErrNotFound), w, w.
    rewrite !UpdateExpiration_absent by exact E. repeat split.
  - destruct (Provider.UpdateExpiration (GetCookie (ctx w) (Cookie (config s)) []) expires
                (heap w) (prov w)) as [[err h1] p1] eqn:Hu.
    eexists _, _, _.
    split; [apply (UpdateExpiration_present s expires opts1 w err h1 p1 N Hu)|].
    split; [apply (UpdateExpiration_present s expires opts2 w err h1 p1 N Hu)|].
    destruct (rewritesCookie err expires);
      cbn [cookieWritten heap prov ctx UpsertCookie response values]; repeat split.
    now rewrite !upserts_app_upserted.
Qed.

End MoreManagerFacts.

Section RegisteringFacts.

Context {P D L : Type} `{RO : Registration.Ops P D L}.

Lemma OnDestroy_run (s : Sessions) (listeners : list L) (w : World P) :
  OnDestroy s listeners w =
  Done tt (mkWorld (registered listeners (heap w) (prov w)).1
                   (registered listeners (heap w) (prov w)).2
                   (ctx w) (clock w) (reads w)).
Proof.
  revert w. induction listeners as [|ln listeners IH]; intros w.
  - cbn. now rewrite world_eta.
  - cbn [OnDestroy]. rewrite bind_run.
    unfold withProvider, unitProvider at 1.
    destruct (Registration.registerDestroyListener ln (heap w) (prov w)) as [h1 p1] eqn:E.
    rewrite IH. cbn [heap prov ctx clock reads].
    unfold registered. cbn [foldl fst snd]. rewrite E. reflexivity.
Qed.

(** X10: [OnDestroy] registers the listeners one by one in the order given and
    acts on the provider alone (the request context and the clock are as
    before); with no listener it changes nothing, and registering two lists
    in two calls is registering their concatenation in one.  [UseDatabase]
    likewise leaves the request context as it was. *)
Theorem OnDestroy_registers_in_order (s : Sessions) (l1 l2 : list L) (db : D)
    (w : World P) :
  OnDestroy s [] w = Done tt w /\
  (exists w',
     OnDestroy s l1 w = Done tt w' /\
     (heap w', prov w') = registered l1 (heap w) (prov w) /\
     ctx w' = ctx w /\ clock w' = clock w /\ reads w' = reads w) /\
  OnDestroy s (l1 ++ l2) w = (OnDestroy s l1 ≫= fun _ => OnDestroy s l2) w /\
  (exists w',
     UseDatabase s db w = Done tt w' /\
     (heap w', prov w') = Registration.RegisterDatabase db (heap w) (prov w) /\
     ctx w' = ctx w).
Proof.
  split; [reflexivity|]. split; [|split].
  - eexists. split; [apply OnDestroy_run|].
    cbn [heap prov ctx clock reads]. repeat split.
    now destruct (registered l1 (heap w) (prov w)).
  - rewrite bind_run, !OnDestroy_run. cbn [heap prov ctx clock reads].
    unfold registered. rewrite foldl_app.
    now destruct (foldl _ (heap w, prov w) l1).
  - unfold UseDatabase, withProvider, unitProvider.
    destruct (Registration.RegisterDatabase db (heap w) (prov w)) as [h1 p1].
    eexists. repeat split.
Qed.

End RegisteringFacts.

(** ** The further facts on the sample requests *)

(** X1, on a first visit: a session is created, yet [Get] still finds none. *)
Lemma Start_keeps_request_state_witness :
  exists w',
    Start (RL := plainLayer) (PO := provider.ops) (sampleManager 0) [] firstVisit
      = Done 1%positive w' /\
    Get (ctx w') = None.
Proof.
  eexists. split; [reflexivity|].
  edestruct (Start_keeps_request_state (RL := plainLayer) (PO := provider.ops)
               (sampleManager 0) [] firstVisit) as (_ & _ & _ & HG); [reflexivity|].
  rewrite HG. reflexivity.
Defined.

(** X3, on a first visit (one cookie written) and on a returning visit (none). *)
Lemma middleware_writes_cookie_on_first_visit_witness :
  (exists w' cookie,
     (Handler (RL := plainLayer) (PO := provider.ops) (sampleManager 0) []).2 firstVisit
       = Done tt w' /\
     response (ctx w') = [Upserted cookie []] /\ http.Value cookie = "abc123") /\
  (exists w',
     (Handler (RL := plainLayer) (PO := provider.ops) (sampleManager 0) []).2 returningVisit
       = Done tt w' /\
     response (ctx w') = []).
Proof.
  split.
  - eexists.
    edestruct (middleware_writes_cookie_on_first_visit (RL := plainLayer)
                 (PO := provider.ops) (sampleManager 0) [] firstVisit) as [_ Hfirst];
      [reflexivity|].
    destruct (Hfirst eq_refl) as (cookie & Hr & _ & Hv).
    exists cookie. split; [reflexivity|]. split; assumption.
  - eexists.
    edestruct (middleware_writes_cookie_on_first_visit (RL := plainLayer)
                 (PO := provider.ops) (sampleManager 0) [] returningVisit) as [Hback _];
      [reflexivity|].
    split; [reflexivity|]. apply Hback. discriminate.
Defined.

(** X4, on a request that carries the cookie of an attached session. *)
Lemma Get_nil_after_Destroy_then_Start_witness :
  exists w1 sess w2,
    Destroy (RL := plainLayer) (PO := provider.ops) (sampleManager 0) attachedVisit
      = Done tt w1 /\
    Start (RL := plainLayer) (PO := provider.ops) (sampleManager 0) [] w1
      = Done sess w2 /\
    Get (ctx w2) = None.
Proof.
  eexists _, _, _. split; [reflexivity|]. split; [reflexivity|].
  eapply (Get_nil_after_Destroy_then_Start (RL := plainLayer) (PO := provider.ops)
            (sampleManager 0) [] attachedVisit); [discriminate|reflexivity|reflexivity].
Defined.

(** X5, on a request that carries the cookie of an attached session. *)
Lemma Destroy_is_cleanup_then_DestroyByID_witness :
  exists w2,
    DestroyByID (PO := provider.ops) (sampleManager 0) "abc123" attachedVisit
      = Done tt w2 /\
    Get (ctx w2) = Some 1%positive /\
    provider.sessions (prov w2) !! "abc123" = None.
Proof.
  destruct (Destroy_is_cleanup_then_DestroyByID (RL := plainLayer) (PO := provider.ops)
              (sampleManager 0) attachedVisit) as (_ & w2 & HD & _ & HG);
    [discriminate|].
  exists w2. split; [exact HD|]. split; [rewrite HG; reflexivity|].
  cbv zeta in HD.
  assert (Done tt w2 =
          DestroyByID (PO := provider.ops) (sampleManager 0) "abc123" attachedVisit)
    as Heq by (symmetry; exact HD).
  injection Heq as ->. reflexivity.
Defined.

(** X8, on a first visit at one hour, at zero and at minus one. *)
Lemma cookie_session_scoped_iff_negative_witness :
  (exists cookie w',
     updateCookie (RL := plainLayer) (sampleManager hour) "abc123" hour [] firstVisit
       = Done tt w' /\ ~ sessionScoped cookie /\
     response (ctx w') = [Upserted cookie []]) /\
  (exists cookie w',
     updateCookie (RL := plainLayer) (sampleManager (-1)) "abc123" (-1) [] firstVisit
       = Done tt w' /\ sessionScoped cookie /\
     response (ctx w') = [Upserted cookie []]).
Proof.
  split.
  - destruct (cookie_session_scoped_iff_negative (RL := plainLayer) (P := provider.provider)
                (sampleManager hour) "abc123" hour [] firstVisit)
      as (cookie & w' & Hrun & Hr & Hiff); [reflexivity|reflexivity|].
    exists cookie, w'. repeat split; try assumption.
    intros Hs. apply Hiff in Hs. discriminate.
  - destruct (cookie_session_scoped_iff_negative (RL := plainLayer) (P := provider.provider)
                (sampleManager (-1)) "abc123" (-1) [] firstVisit)
      as (cookie & w' & Hrun & Hr & Hiff); [reflexivity|reflexivity|].
    exists cookie, w'. repeat split; try assumption; apply Hiff; reflexivity.
Defined.

(** X9, on a first visit under the path ["/app"]. *)
Lemma StartWithPath_passes_path_option_witness :
  exists w' cookie,
    StartWithPath (RL := plainLayer) (PO := provider.ops) (sampleManager 0) "/app"
                  firstVisit = Done 1%positive w' /\
    response (ctx w') = [Upserted cookie [CookiePath "/app"]] /\
    http.Path cookie = "/".
Proof.
  eexists.
  edestruct (StartWithPath_passes_path_option (RL := plainLayer) (PO := provider.ops)
               (sampleManager 0) "/app" firstVisit) as [Hfirst _]; [reflexivity|].
  destruct (Hfirst eq_refl) as (cookie & Hr & Hp & _).
  exists cookie. split; [reflexivity|]. split; assumption.
Defined.
